(** * collectionhelpers: index normalisation and missing-key dispatch

    A shallow embedding of [collectionhelpers.py]: the two class decorators
    [mapping_helper] and [sequence_helper], the nested functions they install,
    the Python built-ins they lean on ([slice.indices], [range], [reversed],
    [tuple], [enumerate]) and the example classes of [test.py].

    Python objects are mutated in place and exceptions leave the mutations
    done so far behind, so every method is a computation over a "world":
    the instance together with the log of the calls made to the primitives
    the class author wrote. *)

From stdpp Require Import base list list_numbers sorting strings pretty gmap.
From Stdlib Require Import ZArith Lia ZifyBool.

Open Scope Z_scope.

(** ** Exceptions and computations *)

Inductive exc_kind :=
  | TypeError | ValueError | IndexError | KeyError
  | AttributeError | AssertionError | RuntimeError.

Global Instance exc_kind_eq_dec : EqDecision exc_kind.
Proof. solve_decision. Defined.

(** An exception: its class and its argument (for a [KeyError] the key's
    text, for the others the message). *)
Record exc := Exc { exc_class : exc_kind; exc_args : string }.

Inductive result (X : Type) :=
  | Ok (x : X)
  | Err (e : exc).
Arguments Ok {X} x.
Arguments Err {X} e.

(** [M W X]: a computation on a world [W] that returns an [X] or raises; the
    world is returned in both cases. *)
Definition M (W X : Type) : Type := W → result X * W.

Section Monad.
Context {W : Type}.

Definition ret {X} (x : X) : M W X := λ w, (Ok x, w).

Definition raise {X} (e : exc) : M W X := λ w, (Err e, w).

Definition bind {X Y} (m : M W X) (k : X → M W Y) : M W Y :=
  λ w, match m w with
       | (Ok x, w') => k x w'
       | (Err e, w') => (Err e, w')
       end.

(** [try: m except <kind>: handler] *)
Definition try_except {X} (m : M W X) (kind : exc_kind)
    (handler : exc → M W X) : M W X :=
  λ w, match m w with
       | (Ok x, w') => (Ok x, w')
       | (Err e, w') =>
           if decide (exc_class e = kind) then handler e w' else (Err e, w')
       end.
End Monad.

Declare Scope py_scope.
Delimit Scope py_scope with py.
Notation "x <- m ;; k" := (bind m (λ x, k))
  (at level 100, m at next level, right associativity) : py_scope.
Notation "m1 ;;; m2" := (bind m1 (λ _, m2))
  (at level 100, right associativity) : py_scope.
Open Scope py_scope.


(** [for x in xs: body(x)] *)
Fixpoint for_each {W B} (xs : list B) (body : B → M W unit) : M W unit :=
  match xs with
  | [] => ret ()
  | x :: xs' => body x ;;; for_each xs' body
  end.

(** ** Python built-ins: [slice] and [range] *)

(** [slice(start, stop, step)]; [None] is an absent component. *)
Record slice := Slice {
  slice_start : option Z;
  slice_stop : option Z;
  slice_step : option Z
}.

(** One bound of [slice.indices]: a negative bound counts from the end and is
    raised to [lower], a non-negative one is cut at [upper]. *)
Definition clamp_bound (length lower upper b : Z) : Z :=
  if b <? 0 then (if b + length <? lower then lower else b + length)
  else (if upper <? b then upper else b).

(** [s.indices(length)], as CPython computes it: the length check, the step
    (absent is 1, zero is refused), the bounds for the step's direction and
    then start and stop. *)
Definition slice_indices (s : slice) (length : Z) : result (Z * Z * Z) :=
  if length <? 0 then Err (Exc ValueError "length should not be negative")
  else
    let step := default 1 (slice_step s) in
    if step =? 0 then Err (Exc ValueError "slice step cannot be zero")
    else
      let step_is_negative := step <? 0 in
      let lower := if step_is_negative then -1 else 0 in
      let upper := if step_is_negative then length + lower else length in
      let start :=
        match slice_start s with
        | None => if step_is_negative then upper else lower
        | Some b => clamp_bound length lower upper b
        end in
      let stop :=
        match slice_stop s with
        | None => if step_is_negative then lower else upper
        | Some b => clamp_bound length lower upper b
        end in
      Ok (start, stop, step).

(** [range(start, stop, step)] with a non-zero step. *)
Record range := Range { range_start : Z; range_stop : Z; range_step : Z }.

(** [len(r)] *)
Definition range_len (r : range) : Z :=
  let '(lo, hi, step) :=
    if 0 <? range_step r
    then (range_start r, range_stop r, range_step r)
    else (range_stop r, range_start r, - range_step r) in
  if hi <=? lo then 0 else (hi - lo - 1) / step + 1.

(** [r[k]] for [0 <= k < len(r)] *)
Definition range_item (r : range) (k : Z) : Z :=
  range_start r + k * range_step r.

(** [list(r)]: the indices a [for] loop over [r] visits. *)
Definition range_list (r : range) : list Z :=
  range_item r <$> seqZ 0 (range_len r).

(** [list(reversed(r))] *)
Definition range_reversed (r : range) : list Z := reverse (range_list r).

(** [list(enumerate(xs, start))] *)
Definition enumerate {B} (xs : list B) (start : Z) : list (Z * B) :=
  zip (seqZ start (Z.of_nat (length xs))) xs.

(** The text of Python's own [AttributeError] for [cls.name]. *)
Definition no_attribute (cls_name attribute : string) : exc :=
  Exc AttributeError
    ("type object '" +:+ cls_name +:+ "' has no attribute '" +:+ attribute +:+ "'").

(** How a class comes by a method of an abstract base class: not at all (a
    registered virtual subclass), by inheriting the mixin, or by its own
    definition. *)
Inductive attr (X : Type) :=
  | Absent
  | Inherited
  | Own (x : X).
Arguments Absent {X}.
Arguments Inherited {X}.
Arguments Own {X} x.

(** ** [mapping_helper] *)

Module MappingHelper.
Section Defs.
Context {K V D : Type}.

(** Calls made to what the class author wrote. *)
Inductive call :=
  | RawLookup (key : K)     (* the original [__getitem__] *)
  | Missing (key : K).      (* [__missing__] *)

Record world := World { self : D; calls : list call }.

(** A method of the author: it may change the instance, and returns or
    raises. *)
Definition method (X : Type) : Type := D → result X * D.

Definition invoke {X} (c : call) (f : method X) : M world X :=
  λ w, let '(r, d) := f (self w) in (r, World d (calls w ++ [c])).

(** A method that is left as the author wrote it. *)
Definition untouched {X} (f : method X) : M world X :=
  λ w, let '(r, d) := f (self w) in (r, World d (calls w)).

Section Wrappers.
Variable _getitem : K → method V.
Variable missing : option (K → method V).   (* [type(self).__missing__] *)

Definition __getitem__ (key : K) : M world V :=
  try_except (invoke (RawLookup key) (_getitem key)) KeyError (λ e,
    match missing with
    | None => raise e
    | Some missing => invoke (Missing key) (missing key)
    end).

Definition __contains__ (key : K) : M world bool :=
  try_except (invoke (RawLookup key) (_getitem key) ;;; ret true)
    KeyError (λ _, ret false).

(** [default] is [None] when the caller gives none, and so is the result
    then. *)
Definition get (key : K) (default : option V) : M world (option V) :=
  try_except (v <- invoke (RawLookup key) (_getitem key) ;; ret (Some v))
    KeyError (λ _, ret default).
End Wrappers.

(** What the decorator reads of the class it is given. *)
Record mapping_class := {
  cls_name : string;
  cls_is_Mapping : bool;                       (* [issubclass(cls, Mapping)] *)
  cls_getitem : option (K → method V);
  cls_missing : option (K → method V);
  cls_contains : attr (K → method bool);
  cls_get : attr (K → option V → method (option V))
}.

(** The methods of the class the decorator returns. *)
Record helped := {
  helped_getitem : K → M world V;
  helped_contains : K → M world bool;
  helped_get : K → option V → M world (option V)
}.

Definition mapping_helper (cls : mapping_class) : result helped :=
  if negb (cls_is_Mapping cls) then Err (Exc TypeError "can only help mappings")
  else
    match cls_getitem cls with
    | None => Err (no_attribute (cls_name cls) "__getitem__")
    | Some _getitem =>
        match cls_contains cls with
        | Absent => Err (no_attribute (cls_name cls) "__contains__")
        | _contains =>
            match cls_get cls with
            | Absent => Err (no_attribute (cls_name cls) "get")
            | _get =>
                Ok {| helped_getitem := __getitem__ _getitem (cls_missing cls);
                      helped_contains :=
                        match _contains with
                        | Own f => λ key, untouched (f key)
                        | _ => __contains__ _getitem
                        end;
                      helped_get :=
                        match _get with
                        | Own f => λ key default, untouched (f key default)
                        | _ => get _getitem
                        end |}
            end
        end
    end.
End Defs.
Arguments call : clear implicits.
Arguments world : clear implicits.
Arguments mapping_class : clear implicits.
Arguments helped : clear implicits.
End MappingHelper.

(** ** [sequence_helper] *)

Module SequenceHelper.
Section Defs.
Context {A C : Type}.

(** Calls made to the primitives the class author wrote. *)
Inductive call :=
  | PrimGet (i : Z)
  | PrimSet (i : Z) (a : A)
  | PrimDel (i : Z)
  | PrimInsert (i : Z) (a : A).

Record world := World { self : C; calls : list call }.

(** What stands between the brackets of [self[...]]: an [int], an object
    with an [__index__] method, a [slice], or anything else. *)
Inductive subscript :=
  | Int (i : Z)
  | Index (i : Z)
  | Sliced (s : slice)
  | Other.

(** How an assigned value iterates: not at all, as a finite run of items
    held apart from the container, or as the container itself
    ([value is self]). *)
Inductive iteration :=
  | NotIterable
  | Yields (items : list A)
  | SameInstance.

(** An assigned value: the object stored when it is assigned to one index,
    and its iteration. *)
Record value := Value { as_item : A; iterates : iteration }.

(** [self[i]] is an item, [self[i:j:k]] a new instance. *)
Inductive got :=
  | Item (a : A)
  | NewInstance (c : C).

Section Wrappers.
Variable len : C → nat.                  (* [len(self)], never negative *)
Variable new : list A → result C.        (* [type(self)(iterable)] *)
Variable _getitem : Z → C → result A.
Variable _delitem : Z → C → result C.
Variable _insert : Z → A → C → result C.
Variable _setitem : Z → A → C → result C.

Definition call_len : M world Z := λ w, (Ok (Z.of_nat (len (self w))), w).

Definition reading {X} (c : call) (f : C → result X) : M world X :=
  λ w, (f (self w), World (self w) (calls w ++ [c])).

Definition mutating (c : call) (f : C → result C) : M world unit :=
  λ w, match f (self w) with
       | Ok self' => (Ok (), World self' (calls w ++ [c]))
       | Err e => (Err e, World (self w) (calls w ++ [c]))
       end.

Definition lift {X} (r : result X) : M world X :=
  match r with Ok x => ret x | Err e => raise e end.

Definition deslice (index : slice) : M world range :=
  n <- call_len ;;
  t <- lift (slice_indices index n) ;;
  let '(start, stop, step) := t in
  ret (Range start stop step).

Definition _posintify (index : subscript) : M world Z :=
  index <- match index with
           | Int i => ret i
           | Index i => ret i
           | Sliced _ | Other => raise (Exc TypeError "indices must be integers")
           end ;;
  if index <? 0 then n <- call_len ;; ret (index + n) else ret index.

Definition posintify (index : subscript) : M world Z :=
  index <- _posintify index ;;
  n <- call_len ;;
  if (index <? 0) || (n <=? index)
  then raise (Exc IndexError "index out of range")
  else ret index.

Definition posinttruncify (index : subscript) : M world Z :=
  index <- _posintify index ;;
  let index := if index <? 0 then 0 else index in
  n <- call_len ;;
  let index := if n <? index then n else index in
  ret index.

(** [(f(i) for i in indices)], run to its end. *)
Fixpoint generate {X} (f : Z → M world X) (indices : list Z) : M world (list X) :=
  match indices with
  | [] => ret []
  | i :: rest => x <- f i ;; xs <- generate f rest ;; ret (x :: xs)
  end.

(** The non-slice branch of [__getitem__]. *)
Definition getitem_at (index : subscript) : M world A :=
  i <- posintify index ;;
  reading (PrimGet i) (_getitem i).

Definition __getitem__ (index : subscript) : M world got :=
  match index with
  | Sliced s =>
      indices <- deslice s ;;
      items <- generate (λ i, reading (PrimGet i) (_getitem i)) (range_list indices) ;;
      c <- lift (new items) ;;
      ret (NewInstance c)
  | _ => a <- getitem_at index ;; ret (Item a)
  end.

Definition __delitem__ (index : subscript) : M world unit :=
  match index with
  | Sliced s =>
      indices <- deslice s ;;
      for_each (range_reversed indices) (λ i, mutating (PrimDel i) (_delitem i))
  | _ =>
      i <- posintify index ;;
      mutating (PrimDel i) (_delitem i)
  end.

Definition insert (index : subscript) (v : A) : M world unit :=
  i <- posinttruncify index ;;
  mutating (PrimInsert i v) (_insert i v).

(** [Sequence.__iter__], which [tuple(self)] runs: [self[0]], [self[1]],
    ... until [IndexError]. Each [self[i]] is the installed [__getitem__]
    at an [int]. The loop has no bound in Python; [fuel] bounds it here,
    and running out of it is reported as a [RuntimeError]. *)
Fixpoint iter_self (fuel : nat) (i : Z) : M world (list A) :=
  match fuel with
  | O => raise (Exc RuntimeError "iteration did not end")
  | S fuel' =>
      try_except
        (v <- getitem_at (Int i) ;;
         rest <- iter_self fuel' (i + 1) ;;
         ret (v :: rest))
        IndexError (λ _, ret [])
  end.

(** [tuple(value)] *)
Definition tuple (v : value) : M world (list A) :=
  match iterates v with
  | NotIterable => raise (Exc TypeError "object is not iterable")
  | Yields items => ret items
  | SameInstance => n <- call_len ;; iter_self (S (Z.to_nat n)) 0
  end.

(** [iter(value)] for a value that is not the container: the items it
    will hand out. *)
Definition iter (v : value) : M world (list A) :=
  match iterates v with
  | Yields items => ret items
  | _ => raise (Exc TypeError "object is not iterable")
  end.

(** The non-slice branch of [__setitem__]; [self[i] = v] in the
    extended-slice loop re-enters [__setitem__] at an [int] and lands
    here. *)
Definition setitem_at (index : subscript) (v : A) : M world unit :=
  i <- posintify index ;;
  mutating (PrimSet i v) (_setitem i v).

Definition size_mismatch (values indices : Z) : string :=
  "attempt to assign " +:+ pretty values +:+
  " values to an extended slice of size " +:+ pretty indices.

Definition __setitem__ (index : subscript) (v : value) : M world unit :=
  match index with
  | Sliced s =>
      indices <- deslice s ;;
      if match slice_step s with Some step => negb (step =? 1) | None => false end
      then
        values <- try_except (tuple v) TypeError
                    (λ _, raise (Exc TypeError "must assign iterable to extended slice")) ;;
        if negb (Z.of_nat (length values) =? range_len indices)
        then raise (Exc ValueError
                      (size_mismatch (Z.of_nat (length values)) (range_len indices)))
        else for_each (zip (range_list indices) values)
                      (λ '(i, x), setitem_at (Int i) x)
      else
        values <- try_except
                    (match iterates v with
                     | SameInstance => tuple v
                     | _ => iter v
                     end)
                    TypeError (λ _, raise (Exc TypeError "must assign iterable to slice")) ;;
        for_each (range_reversed indices) (λ i, mutating (PrimDel i) (_delitem i)) ;;;
        for_each (enumerate values (range_start indices))
                 (λ '(i, x), mutating (PrimInsert i x) (_insert i x))
  | _ => setitem_at index (as_item v)
  end.
End Wrappers.

(** What the decorator reads of the class it is given. *)
Record sequence_class := {
  cls_name : string;
  cls_is_Sequence : bool;              (* [issubclass(cls, Sequence)] *)
  cls_is_MutableSequence : bool;       (* [issubclass(cls, MutableSequence)] *)
  cls_len : C → nat;
  cls_new : list A → result C;
  cls_getitem : option (Z → C → result A);
  cls_delitem : option (Z → C → result C);
  cls_insert : option (Z → A → C → result C);
  cls_setitem : option (Z → A → C → result C)
}.

(** The methods the decorator has replaced in the class it returns. *)
Inductive helped :=
  | HelpedSequence (getitem : subscript → M world got)
  | HelpedMutableSequence
      (getitem : subscript → M world got)
      (delitem : subscript → M world unit)
      (insert : subscript → A → M world unit)
      (setitem : subscript → value → M world unit).

Definition sequence_helper (cls : sequence_class) : result helped :=
  if negb (cls_is_Sequence cls) then Err (Exc TypeError "can only help sequences")
  else
    match cls_getitem cls with
    | None => Err (no_attribute (cls_name cls) "__getitem__")
    | Some _getitem =>
        let getitem := __getitem__ (cls_len cls) (cls_new cls) _getitem in
        if negb (cls_is_MutableSequence cls) then Ok (HelpedSequence getitem)
        else
          match cls_delitem cls with
          | None => Err (no_attribute (cls_name cls) "__delitem__")
          | Some _delitem =>
              match cls_insert cls with
              | None => Err (no_attribute (cls_name cls) "insert")
              | Some _insert =>
                  match cls_setitem cls with
                  | None => Err (no_attribute (cls_name cls) "__setitem__")
                  | Some _setitem =>
                      Ok (HelpedMutableSequence getitem
                            (__delitem__ (cls_len cls) _delitem)
                            (insert (cls_len cls) _insert)
                            (__setitem__ (cls_len cls) _getitem _delitem _insert _setitem))
                  end
              end
          end
    end.
End Defs.
Arguments call : clear implicits.
Arguments world : clear implicits.
Arguments value : clear implicits.
Arguments iteration : clear implicits.
Arguments got : clear implicits.
Arguments sequence_class : clear implicits.
Arguments helped : clear implicits.
End SequenceHelper.

(** ** The contract of the primitives

    The decorated class promises primitives that work at indices in range:
    [contents] is the run of items an instance holds, and each primitive
    called within its range does to it what the list operation of the same
    name does. Nothing is promised outside the range. *)

Section Contract.
Context {A C : Type}.
Variable contents : C → list A.
Variable len : C → nat.
Variable new : list A → result C.
Variable _getitem : Z → C → result A.
Variable _delitem : Z → C → result C.
Variable _insert : Z → A → C → result C.
Variable _setitem : Z → A → C → result C.

Record sequence_contract : Prop := {
  len_contents : ∀ c, len c = length (contents c);
  getitem_contents : ∀ c i a,
    0 ≤ i → contents c !! Z.to_nat i = Some a → _getitem i c = Ok a;
  new_contents : ∀ items, ∃ c, new items = Ok c ∧ contents c = items
}.

Record mutable_sequence_contract : Prop := {
  delitem_contents : ∀ c i,
    0 ≤ i < Z.of_nat (len c) →
    ∃ c', _delitem i c = Ok c' ∧ contents c' = delete (Z.to_nat i) (contents c);
  insert_contents : ∀ c i v,
    0 ≤ i ≤ Z.of_nat (len c) →
    ∃ c', _insert i v c = Ok c' ∧
          contents c' = take (Z.to_nat i) (contents c) ++ v :: drop (Z.to_nat i) (contents c);
  setitem_contents : ∀ c i v,
    0 ≤ i < Z.of_nat (len c) →
    ∃ c', _setitem i v c = Ok c' ∧ contents c' = <[Z.to_nat i := v]> (contents c)
}.

(** The items an assigned value yields when it is iterated in front of the
    container [c]: its own, or the container's. *)
Definition source_items (c : C) (v : SequenceHelper.value A) : option (list A) :=
  match SequenceHelper.iterates v with
  | SequenceHelper.NotIterable => None
  | SequenceHelper.Yields items => Some items
  | SequenceHelper.SameInstance => Some (contents c)
  end.

(** The reads [tuple(value)] makes of the container [c]: none, unless the
    value is the container. *)
Definition source_reads (c : C) (v : SequenceHelper.value A) : list (SequenceHelper.call A) :=
  match SequenceHelper.iterates v with
  | SequenceHelper.SameInstance => SequenceHelper.PrimGet <$> seqZ 0 (Z.of_nat (len c))
  | _ => []
  end.
End Contract.

(** What a list holds after the stores [l[i] = x] for the pairs [(i, x)] of
    [ps], done from left to right. *)
Definition store_all {A} (l : list A) (ps : list (Z * A)) : list A :=
  foldl (λ l '(i, x), <[Z.to_nat i := x]> l) l ps.

(** The items of [l] whose position is not in [ps]; [k] is the position of
    the head of [l]. *)
Fixpoint omit_positions {A} (ps : list Z) (k : Z) (l : list A) : list A :=
  match l with
  | [] => []
  | x :: l' =>
      if decide (k ∈ ps) then omit_positions ps (k + 1) l'
      else x :: omit_positions ps (k + 1) l'
  end.

(** Does the text [msg] mention [name]? *)
Definition mentions (name msg : string) : bool :=
  match String.index 0 name msg with
  | Some _ => true
  | None => false
  end.

(** Replays a log of primitive calls from a container of length [n]: is every
    index within the range its primitive allows at the time of the call? *)
Fixpoint calls_valid {A} (n : Z) (cs : list (SequenceHelper.call A)) : bool :=
  match cs with
  | [] => true
  | SequenceHelper.PrimGet i :: cs' => (0 <=? i) && (i <? n) && calls_valid n cs'
  | SequenceHelper.PrimSet i _ :: cs' => (0 <=? i) && (i <? n) && calls_valid n cs'
  | SequenceHelper.PrimDel i :: cs' => (0 <=? i) && (i <? n) && calls_valid (n - 1) cs'
  | SequenceHelper.PrimInsert i _ :: cs' => (0 <=? i) && (i <=? n) && calls_valid (n + 1) cs'
  end.

(** Does the log hold a call that changes the container? *)
Definition is_mutation {A} (c : SequenceHelper.call A) : bool :=
  match c with
  | SequenceHelper.PrimGet _ => false
  | _ => true
  end.

(** ** The example classes of [test.py] *)

Module Test.
(** Keys and values of the mapping tests: a string, an exception instance
    or an exception class. *)
Inductive object :=
  | Str (s : string)
  | Raised (e : exc)
  | ExcClass (k : exc_kind).

(** An instance of [FrozenKeyDict]: the wrapped [dict], here with string
    keys. *)
Record FrozenKeyDict := MkFrozenKeyDict { _dict : gmap string object }.

Definition FrozenKeyDict_getitem (key : object)
    : MappingHelper.method (D:=FrozenKeyDict) object :=
  λ self,
    match key with
    | Str s =>
        match _dict self !! s with
        | Some v => (Ok v, self)
        | None => (Err (Exc KeyError s), self)
        end
    | Raised e => (Err (Exc KeyError (exc_args e)), self)
    | ExcClass _ => (Err (Exc KeyError "<class>"), self)
    end.

Definition FrozenKeyDict_missing (key : object)
    : MappingHelper.method (D:=FrozenKeyDict) object :=
  λ self,
    match key with
    | Raised e => (Err e, self)
    | ExcClass k => (Err (Exc k ""), self)
    | Str _ => (Ok key, self)
    end.

Definition FrozenKeyDict_class
    : MappingHelper.mapping_class object object FrozenKeyDict := {|
  MappingHelper.cls_name := "FrozenKeyDict";
  MappingHelper.cls_is_Mapping := true;
  MappingHelper.cls_getitem := Some FrozenKeyDict_getitem;
  MappingHelper.cls_missing := Some FrozenKeyDict_missing;
  MappingHelper.cls_contains := Inherited;
  MappingHelper.cls_get := Inherited
|}.

(** [FrozenKeyDict({'a': 'b'})], nothing logged yet. *)
Definition a_b : MappingHelper.world object FrozenKeyDict :=
  MappingHelper.World (MkFrozenKeyDict {[ "a" := Str "b" ]}) [].

(** [__getitem__ = 42]: an attribute that is there and cannot be called. *)
Definition forty_two {X} : result X := Err (Exc TypeError "'int' object is not callable").

(** [class M] of [FrozenDictTest.test_decorate], before it is registered. *)
Definition M_class : MappingHelper.mapping_class object object FrozenKeyDict := {|
  MappingHelper.cls_name := "M";
  MappingHelper.cls_is_Mapping := false;
  MappingHelper.cls_getitem := Some (λ _ self, (forty_two, self));
  MappingHelper.cls_missing := None;
  MappingHelper.cls_contains := Own (λ _ self, (forty_two, self));
  MappingHelper.cls_get := Own (λ _ _ self, (forty_two, self))
|}.

(** [class O] of [FrozenDictTest.test_decorate]: a subclass of the abstract
    base class with the same attributes as [M]. *)
Definition O_class : MappingHelper.mapping_class object object FrozenKeyDict := {|
  MappingHelper.cls_name := "O";
  MappingHelper.cls_is_Mapping := true;
  MappingHelper.cls_getitem := Some (λ _ self, (forty_two, self));
  MappingHelper.cls_missing := None;
  MappingHelper.cls_contains := Own (λ _ self, (forty_two, self));
  MappingHelper.cls_get := Own (λ _ _ self, (forty_two, self))
|}.

(** A subclass of [Mapping] whose lookup cannot be called and which
    inherits [__contains__] and [get]. *)
Definition Uncallable_class : MappingHelper.mapping_class object object FrozenKeyDict := {|
  MappingHelper.cls_name := "Uncallable";
  MappingHelper.cls_is_Mapping := true;
  MappingHelper.cls_getitem := Some (λ _ self, (forty_two, self));
  MappingHelper.cls_missing := Some FrozenKeyDict_missing;
  MappingHelper.cls_contains := Inherited;
  MappingHelper.cls_get := Inherited
|}.

Section Classes.
Context {A : Type}.

(** An instance of [List] (and of [Tuple]): the wrapped built-in. *)
Record List := MkList { _list : list A }.

Definition assertion_failed {X} : result X := Err (Exc AssertionError "").

Definition List_len (self : List) : nat := length (_list self).

Definition in_range (index : Z) (self : List) : bool :=
  (0 <=? index) && (index <? Z.of_nat (List_len self)).

Definition List_new (items : list A) : result List := Ok (MkList items).

Definition List_getitem (index : Z) (self : List) : result A :=
  if in_range index self then
    match _list self !! Z.to_nat index with
    | Some a => Ok a
    | None => Err (Exc IndexError "list index out of range")
    end
  else assertion_failed.

Definition List_delitem (index : Z) (self : List) : result List :=
  if in_range index self
  then Ok (MkList (delete (Z.to_nat index) (_list self)))
  else assertion_failed.

Definition List_setitem (index : Z) (v : A) (self : List) : result List :=
  if in_range index self
  then Ok (MkList (<[Z.to_nat index := v]> (_list self)))
  else assertion_failed.

Definition List_insert (index : Z) (v : A) (self : List) : result List :=
  if (0 <=? index) && (index <=? Z.of_nat (List_len self))
  then Ok (MkList (take (Z.to_nat index) (_list self) ++ v :: drop (Z.to_nat index) (_list self)))
  else assertion_failed.

Definition Tuple_class : SequenceHelper.sequence_class A List := {|
  SequenceHelper.cls_name := "Tuple";
  SequenceHelper.cls_is_Sequence := true;
  SequenceHelper.cls_is_MutableSequence := false;
  SequenceHelper.cls_len := List_len;
  SequenceHelper.cls_new := List_new;
  SequenceHelper.cls_getitem := Some List_getitem;
  SequenceHelper.cls_delitem := None;
  SequenceHelper.cls_insert := None;
  SequenceHelper.cls_setitem := None
|}.

Definition List_class : SequenceHelper.sequence_class A List := {|
  SequenceHelper.cls_name := "List";
  SequenceHelper.cls_is_Sequence := true;
  SequenceHelper.cls_is_MutableSequence := true;
  SequenceHelper.cls_len := List_len;
  SequenceHelper.cls_new := List_new;
  SequenceHelper.cls_getitem := Some List_getitem;
  SequenceHelper.cls_delitem := Some List_delitem;
  SequenceHelper.cls_insert := Some List_insert;
  SequenceHelper.cls_setitem := Some List_setitem
|}.

(** [class S] of [TupleTest.test_decorate], before it is registered. *)
Definition S_class : SequenceHelper.sequence_class A List := {|
  SequenceHelper.cls_name := "S";
  SequenceHelper.cls_is_Sequence := false;
  SequenceHelper.cls_is_MutableSequence := false;
  SequenceHelper.cls_len := λ _, 42%nat;
  SequenceHelper.cls_new := List_new;
  SequenceHelper.cls_getitem := Some (λ _ _, forty_two);
  SequenceHelper.cls_delitem := Some (λ _ _, forty_two);
  SequenceHelper.cls_insert := Some (λ _ _ _, forty_two);
  SequenceHelper.cls_setitem := Some (λ _ _ _, forty_two)
|}.

(** A fresh instance, nothing logged yet. *)
Definition fresh (items : list A) : SequenceHelper.world A List :=
  SequenceHelper.World (MkList items) [].

(** The wrappers [sequence_helper] installs in [List]. *)
Definition List__getitem__ := SequenceHelper.__getitem__ List_len List_new List_getitem.
Definition List__delitem__ := SequenceHelper.__delitem__ (A:=A) List_len List_delitem.
Definition List_insert_ := SequenceHelper.insert List_len List_insert.
Definition List__setitem__ :=
  SequenceHelper.__setitem__ List_len List_getitem List_delitem List_insert List_setitem.
End Classes.
Arguments List : clear implicits.
End Test.


(** * Properties *)

(** ** [slice.indices] and [range] *)

Section Ranges.
Implicit Types (s : slice) (r : range) (n : nat).

Lemma range_len_nonneg r : 0 ≤ range_len r.
Proof.
  unfold range_len.
  destruct (0 <? range_step r) eqn:Hstep; simpl;
    case_match; try lia;
    apply Z.add_nonneg_nonneg; try lia;
    apply Z_div_nonneg_nonneg; lia.
Qed.

Lemma clamp_bound_between length lower upper b :
  lower ≤ upper → lower ≤ 0 → length - 1 ≤ upper →
  lower ≤ clamp_bound length lower upper b ≤ upper.
Proof. unfold clamp_bound. intros. repeat case_match; lia. Qed.

(** A zero step is the one thing [slice.indices] refuses. *)
Lemma slice_indices_zero_step s n :
  slice_step s = Some 0 →
  slice_indices s (Z.of_nat n) = Err (Exc ValueError "slice step cannot be zero").
Proof.
  intros Hstep. unfold slice_indices. rewrite Hstep. simpl.
  destruct (Z.of_nat n <? 0) eqn:Hn; [lia | done].
Qed.

Lemma slice_indices_ok s n :
  slice_step s ≠ Some 0 →
  ∃ start stop step, slice_indices s (Z.of_nat n) = Ok (start, stop, step).
Proof.
  intros Hstep. unfold slice_indices.
  destruct (Z.of_nat n <? 0) eqn:Hn; [lia|].
  destruct (default 1 (slice_step s) =? 0) eqn:H0; [|eauto].
  destruct (slice_step s) as [k|]; simpl in H0; [|lia].
  destruct Hstep. f_equal. lia.
Qed.

(** Where [slice.indices] puts start and stop: within [0, n] for a step
    going up, within [-1, n-1] for a step going down. *)
Lemma slice_indices_bounds s n start stop step :
  slice_indices s (Z.of_nat n) = Ok (start, stop, step) →
  step = default 1 (slice_step s) ∧ step ≠ 0 ∧
  (0 < step → 0 ≤ start ≤ Z.of_nat n ∧ 0 ≤ stop ≤ Z.of_nat n) ∧
  (step < 0 → (-1) ≤ start < Z.of_nat n ∧ (-1) ≤ stop < Z.of_nat n).
Proof.
  unfold slice_indices.
  destruct (Z.of_nat n <? 0) eqn:Hn; [done|].
  destruct (default 1 (slice_step s) =? 0) eqn:H0; [done|].
  intros [= <- <- <-].
  set (step := default 1 (slice_step s)) in *.
  split; [done|]. split; [lia|].
  split; intros Hsign.
  - assert ((step <? 0) = false) as -> by lia.
    pose proof (clamp_bound_between (Z.of_nat n) 0 (Z.of_nat n)) as Hb.
    split; case_match; try lia; apply Hb; lia.
  - assert ((step <? 0) = true) as -> by lia.
    pose proof (clamp_bound_between (Z.of_nat n) (-1) (Z.of_nat n + -1)) as Hb.
    split; case_match; try lia.
    + specialize (Hb z); lia.
    + specialize (Hb z); lia.
Qed.

(** Every index of the range of a slice is one the container has. *)
Lemma range_item_in_bounds s n start stop step k :
  slice_indices s (Z.of_nat n) = Ok (start, stop, step) →
  0 ≤ k < range_len (Range start stop step) →
  0 ≤ range_item (Range start stop step) k < Z.of_nat n.
Proof.
  intros Hs Hk. apply slice_indices_bounds in Hs as (_ & Hne & Hup & Hdown).
  unfold range_len, range_item in *. simpl in *.
  destruct (0 <? step) eqn:Hsign.
  - destruct Hup as [??]; [lia|].
    destruct (stop <=? start) eqn:Hle; [lia|].
    pose proof (Z.mul_div_le (stop - start - 1) step). nia.
  - destruct Hdown as [??]; [lia|].
    destruct (start <=? stop) eqn:Hle; [lia|].
    pose proof (Z.mul_div_le (start - stop - 1) (- step)). nia.
Qed.

Lemma elem_of_range_list r i :
  i ∈ range_list r ↔ ∃ k, 0 ≤ k < range_len r ∧ i = range_item r k.
Proof.
  unfold range_list. rewrite list_elem_of_fmap.
  split.
  - intros (k & -> & Hk%elem_of_seqZ). exists k. split; [lia | done].
  - intros (k & Hk & ->). exists k. split; [done | apply elem_of_seqZ; lia].
Qed.

Lemma range_list_in_bounds s n start stop step :
  slice_indices s (Z.of_nat n) = Ok (start, stop, step) →
  Forall (λ i, 0 ≤ i < Z.of_nat n) (range_list (Range start stop step)).
Proof.
  intros Hs. apply Forall_forall. intros i (k & Hk & ->)%elem_of_range_list.
  by eapply range_item_in_bounds.
Qed.

Lemma length_range_list r : Z.of_nat (length (range_list r)) = range_len r.
Proof.
  unfold range_list. rewrite length_fmap, length_seqZ.
  pose proof (range_len_nonneg r). lia.
Qed.

Lemma lookup_range_list r k :
  0 ≤ k < range_len r →
  range_list r !! Z.to_nat k = Some (range_item r k).
Proof.
  intros Hk. unfold range_list. rewrite list_lookup_fmap, lookup_seqZ_lt by lia.
  simpl. f_equal. f_equal. lia.
Qed.

(** A range never visits an index twice. *)
Lemma NoDup_range_list r : range_step r ≠ 0 → NoDup (range_list r).
Proof.
  intros Hstep. unfold range_list. apply NoDup_fmap_2_strong; [|apply NoDup_seqZ].
  unfold range_item. intros x y _ _ Heq. nia.
Qed.

(** A range of step 1 is a run of consecutive indices. *)
Lemma range_list_step_1 start stop :
  range_list (Range start stop 1) = seqZ start (stop - start).
Proof.
  unfold range_list, range_len, range_item. simpl.
  destruct (stop <=? start) eqn:Hle.
  - by rewrite !seqZ_nil by lia.
  - rewrite Z.div_1_r.
    replace (stop - start - 1 + 1) with (stop - start) by lia.
    transitivity (Z.add start <$> seqZ 0 (stop - start)).
    + apply list_fmap_ext. intros; lia.
    + rewrite fmap_add_seqZ. f_equal. lia.
Qed.

(** Read backwards, a range that goes up goes down. *)
Lemma range_reversed_descending r :
  0 < range_step r → StronglySorted (λ a b, b < a) (range_reversed r).
Proof.
  intros Hstep. unfold range_reversed, range_list.
  pose proof (range_len_nonneg r) as Hlen.
  rewrite <- (Z2Nat.id (range_len r)) by done.
  induction (Z.to_nat (range_len r)) as [|m IH]; [constructor|].
  rewrite seqZ_S, fmap_app, list_fmap_singleton, reverse_snoc. constructor; [done|].
  apply Forall_forall. intros i (k & -> & Hk%elem_of_seqZ)%elem_of_reverse%list_elem_of_fmap.
  unfold range_item. nia.
Qed.
End Ranges.

(** ** Stores at distinct indices *)

Section StoreAll.
Context {A : Type}.
Implicit Types (l : list A) (ps : list (Z * A)).

Lemma length_store_all ps l : length (store_all l ps) = length l.
Proof.
  revert l. induction ps as [|[i x] ps IH]; intros l; [done|].
  unfold store_all in *. simpl. by rewrite IH, length_insert.
Qed.

Lemma store_all_other ps l (j : nat) :
  (∀ i x, (i, x) ∈ ps → Z.to_nat i ≠ j) →
  store_all l ps !! j = l !! j.
Proof.
  revert l. induction ps as [|[i x] ps IH]; intros l Hj; [done|].
  unfold store_all in *. simpl. rewrite IH.
  - apply list_lookup_insert_ne. apply (Hj i x). by left.
  - intros i' x' Hin. apply (Hj i' x'). by right.
Qed.

(** After pairwise stores at indices that are all different, each index
    holds the item that was paired with it. *)
Lemma store_all_lookup indices items l (k : nat) i x :
  NoDup indices →
  Forall (λ i, 0 ≤ i < Z.of_nat (length l)) indices →
  indices !! k = Some i → items !! k = Some x →
  store_all l (zip indices items) !! Z.to_nat i = Some x.
Proof.
  revert items l k. induction indices as [|i0 rest IH]; intros items l k Hnd Hall Hi Hx; [done|].
  destruct items as [|x0 items]; [done|].
  apply NoDup_cons in Hnd as [Hi0 Hnd]. apply Forall_cons in Hall as [Hr0 Hall].
  change (store_all l (zip (i0 :: rest) (x0 :: items)))
    with (store_all (<[Z.to_nat i0 := x0]> l) (zip rest items)).
  destruct k as [|k]; simpl in *.
  - injection Hi as <-. injection Hx as <-.
    rewrite store_all_other.
    + apply list_lookup_insert_eq. lia.
    + intros i x Hin Heq. apply elem_of_zip_l in Hin.
      assert (0 ≤ i) by (rewrite Forall_forall in Hall; by apply Hall).
      apply Hi0. by replace i0 with i by lia.
  - apply (IH items _ k); [done| |done|done].
    by rewrite length_insert.
Qed.
End StoreAll.

(** ** Deleting positions from the last one down *)

Section OmitPositions.
Context {A : Type}.
Implicit Types (l : list A) (ps : list Z) (i k : Z).

Lemma omit_positions_below ps k l :
  Forall (λ p, p < k) ps → omit_positions ps k l = l.
Proof.
  revert k. induction l as [|x l IH]; intros k Hps; [done|]. simpl.
  rewrite decide_False.
  - f_equal. apply IH. eapply Forall_impl; [done|]. simpl. lia.
  - intros Hin. rewrite Forall_forall in Hps. specialize (Hps k Hin). lia.
Qed.

(** Deleting the highest of the positions first leaves the others where
    they were. *)
Lemma omit_positions_delete i rest k l :
  Forall (λ p, p < i) rest →
  k ≤ i < k + Z.of_nat (length l) →
  omit_positions (i :: rest) k l = omit_positions rest k (delete (Z.to_nat (i - k)) l).
Proof.
  revert k. induction l as [|x l IH]; intros k Hrest Hi; simpl in *; [lia|].
  destruct (decide (i = k)) as [->|Hne].
  - rewrite decide_True by left. rewrite Z.sub_diag. simpl.
    rewrite !omit_positions_below; [done|done|].
    constructor; [lia|]. eapply Forall_impl; [done|]. simpl. lia.
  - replace (Z.to_nat (i - k)) with (S (Z.to_nat (i - (k + 1)))) by lia. simpl.
    rewrite <- IH by (done || lia).
    destruct (decide (k ∈ rest)).
    + by rewrite decide_True by (by right).
    + rewrite decide_False; [done|]. by intros [?|?]%elem_of_cons.
Qed.
End OmitPositions.

(** ** The example classes keep the contract *)

Section TestContract.
Context {A : Type}.
Import Test.

Lemma List_sequence_contract :
  sequence_contract (A:=A) _list List_len List_new List_getitem.
Proof.
  split.
  - done.
  - intros [l] i a Hi Hl. unfold List_getitem, in_range, List_len. simpl in *.
    apply lookup_lt_Some in Hl as Hlt.
    rewrite Hl. case_match; [done | lia].
  - intros items. by exists (MkList items).
Qed.

Lemma List_mutable_sequence_contract :
  mutable_sequence_contract (A:=A) _list List_len List_delitem List_insert List_setitem.
Proof.
  split.
  - intros [l] i Hi. unfold List_delitem, in_range, List_len in *. simpl in *.
    exists (MkList (delete (Z.to_nat i) l)). split; [|done]. case_match; [done | lia].
  - intros [l] i v Hi. unfold List_insert, List_len in *. simpl in *.
    exists (MkList (take (Z.to_nat i) l ++ v :: drop (Z.to_nat i) l)).
    split; [|done]. case_match; [done | lia].
  - intros [l] i v Hi. unfold List_setitem, in_range, List_len in *. simpl in *.
    exists (MkList (<[Z.to_nat i := v]> l)). split; [|done]. case_match; [done | lia].
Qed.
End TestContract.

(** ** The sequence wrappers *)

Section SequenceFacts.
Import SequenceHelper.
Context {A C : Type}.
Variable contents : C → list A.
Variable len : C → nat.
Variable new : list A → result C.
Variable _getitem : Z → C → result A.
Variable _delitem : Z → C → result C.
Variable _insert : Z → A → C → result C.
Variable _setitem : Z → A → C → result C.

Implicit Types (w : world A C) (c : C) (i j k : Z) (s : slice) (r : range).

Local Abbreviation zero_step := (Exc ValueError "slice step cannot be zero").
Local Abbreviation out_of_range := (Exc IndexError "index out of range").

(** *** Normalising one index *)

(** Wrap-around, then the range check. *)
Lemma posintify_Int w i :
  posintify len (Int i) w =
    let n := Z.of_nat (len (self w)) in
    let j := if i <? 0 then i + n else i in
    if (j <? 0) || (n <=? j) then (Err out_of_range, w) else (Ok j, w).
Proof.
  unfold posintify, _posintify, bind, ret, raise, call_len. simpl.
  destruct (i <? 0); simpl; by case_match.
Qed.

Lemma posintify_in_range w i :
  0 ≤ i < Z.of_nat (len (self w)) → posintify len (Int i) w = (Ok i, w).
Proof.
  intros Hi. rewrite posintify_Int. simpl.
  assert ((i <? 0) = false) as -> by lia.
  by assert ((i <? 0) || (Z.of_nat (len (self w)) <=? i) = false) as -> by lia.
Qed.

Lemma posintify_out_of_range w i :
  i < - Z.of_nat (len (self w)) ∨ Z.of_nat (len (self w)) ≤ i →
  posintify len (Int i) w = (Err out_of_range, w).
Proof.
  intros Hi. rewrite posintify_Int. simpl.
  destruct (i <? 0) eqn:Hneg.
  - by assert ((i + Z.of_nat (len (self w)) <? 0)
               || (Z.of_nat (len (self w)) <=? i + Z.of_nat (len (self w))) = true)
      as -> by lia.
  - by assert ((i <? 0) || (Z.of_nat (len (self w)) <=? i) = true) as -> by lia.
Qed.

(** An object with [__index__] is read as the [int] it converts to. *)
Lemma getitem_Index w i :
  __getitem__ len new _getitem (Index i) w = __getitem__ len new _getitem (Int i) w.
Proof. reflexivity. Qed.

Lemma getitem_at_in_range w i :
  0 ≤ i < Z.of_nat (len (self w)) →
  getitem_at len _getitem (Int i) w =
    (_getitem i (self w), World (self w) (calls w ++ [PrimGet i])).
Proof. intros Hi. unfold getitem_at, bind. by rewrite posintify_in_range. Qed.

Lemma getitem_at_out_of_range w i :
  i < - Z.of_nat (len (self w)) ∨ Z.of_nat (len (self w)) ≤ i →
  getitem_at len _getitem (Int i) w = (Err out_of_range, w).
Proof. intros Hi. unfold getitem_at, bind. by rewrite posintify_out_of_range. Qed.

Lemma getitem_wraps w i :
  - Z.of_nat (len (self w)) ≤ i < 0 →
  __getitem__ len new _getitem (Int i) w =
    __getitem__ len new _getitem (Int (Z.of_nat (len (self w)) + i)) w.
Proof.
  intros Hi. unfold __getitem__, getitem_at, bind.
  rewrite !posintify_Int. simpl.
  assert ((i <? 0) = true) as -> by lia.
  assert ((Z.of_nat (len (self w)) + i <? 0) = false) as -> by lia.
  by rewrite (Z.add_comm i).
Qed.

Section Sequence.
Hypothesis Hseq : sequence_contract contents len new _getitem.

Lemma in_range_lookup c i :
  0 ≤ i < Z.of_nat (len c) →
  ∃ a, contents c !! Z.to_nat i = Some a ∧ _getitem i c = Ok a.
Proof using Hseq.
  intros Hi. destruct (contents c !! Z.to_nat i) as [a|] eqn:Hl.
  - exists a. split; [done|]. apply Hseq; [lia | done].
  - apply lookup_ge_None in Hl. rewrite (len_contents _ _ _ _ Hseq) in Hi. lia.
Qed.

Lemma getitem_in_range w i :
  0 ≤ i < Z.of_nat (len (self w)) →
  ∃ a, contents (self w) !! Z.to_nat i = Some a ∧
       __getitem__ len new _getitem (Int i) w =
         (Ok (Item a), World (self w) (calls w ++ [PrimGet i])).
Proof using Hseq.
  intros Hi. destruct (in_range_lookup (self w) i Hi) as (a & Hl & Hget).
  exists a. split; [done|].
  unfold __getitem__, bind. rewrite getitem_at_in_range by done. by rewrite Hget.
Qed.

(** C3. On a container of length [n], [self[i]] for [0 <= i < n] is one
    call of the primitive at [i] and returns item [i]; for [-n <= i < 0] it
    is [self[n + i]]; and it raises [IndexError] exactly when [i < -n] or
    [i >= n]. *)
Theorem getitem_index w i :
  let n := Z.of_nat (len (self w)) in
  (0 ≤ i < n →
     __getitem__ len new _getitem (Int i) w =
       (match _getitem i (self w) with Ok a => Ok (Item a) | Err e => Err e end,
        World (self w) (calls w ++ [PrimGet i])) ∧
     ∃ a, contents (self w) !! Z.to_nat i = Some a ∧
          __getitem__ len new _getitem (Int i) w =
            (Ok (Item a), World (self w) (calls w ++ [PrimGet i]))) ∧
  (- n ≤ i < 0 →
     __getitem__ len new _getitem (Int i) w = __getitem__ len new _getitem (Int (n + i)) w) ∧
  ((∃ msg w', __getitem__ len new _getitem (Int i) w = (Err (Exc IndexError msg), w')) ↔
   i < - n ∨ n ≤ i).
Proof using Hseq.
  intros n. split; [|split].
  - intros Hi. split; [|by apply getitem_in_range].
    unfold __getitem__, bind. rewrite getitem_at_in_range by done.
    by destruct (_getitem i (self w)).
  - apply getitem_wraps.
  - split.
    + intros (msg & w' & Hrun).
      destruct (decide (i < - n ∨ n ≤ i)) as [|Hin]; [done|].
      destruct (decide (i < 0)) as [Hneg|Hpos].
      * rewrite getitem_wraps in Hrun by (fold n; lia).
        destruct (getitem_in_range w (n + i)) as (a & _ & Hok); [fold n; lia|].
        fold n in Hrun. rewrite Hok in Hrun. done.
      * destruct (getitem_in_range w i) as (a & _ & Hok); [fold n; lia|].
        rewrite Hok in Hrun. done.
    + intros Hout. exists "index out of range", w.
      unfold __getitem__, bind. by rewrite getitem_at_out_of_range.
Qed.

(** *** Slices *)

Lemma deslice_ok w s start stop step :
  slice_indices s (Z.of_nat (len (self w))) = Ok (start, stop, step) →
  deslice len s w = (Ok (Range start stop step), w).
Proof. intros Hs. unfold deslice, bind, call_len, lift. by rewrite Hs. Qed.

Lemma deslice_zero_step w s :
  slice_step s = Some 0 → deslice len s w = (Err zero_step, w).
Proof.
  intros Hs. unfold deslice, bind, call_len, lift.
  by rewrite slice_indices_zero_step.
Qed.

(** Reading a run of indices within range returns the items at them, one
    primitive call each, in the order of the run. *)
Lemma generate_reads indices w :
  Forall (λ i, 0 ≤ i < Z.of_nat (len (self w))) indices →
  ∃ items,
    Forall2 (λ i a, contents (self w) !! Z.to_nat i = Some a) indices items ∧
    generate (λ i, reading (PrimGet i) (_getitem i)) indices w =
      (Ok items, World (self w) (calls w ++ (PrimGet <$> indices))).
Proof using Hseq.
  revert w. induction indices as [|i rest IH]; intros w Hall.
  - exists []. split; [constructor|]. simpl. rewrite app_nil_r. by destruct w.
  - apply Forall_cons in Hall as [Hi Hrest].
    destruct (in_range_lookup (self w) i Hi) as (a & Hl & Hget).
    destruct (IH (World (self w) (calls w ++ [PrimGet i])) Hrest) as (items & Hitems & Hrun).
    exists (a :: items). split; [by constructor|].
    simpl. unfold bind, reading at 1. rewrite Hget.
    fold (@generate A C). rewrite Hrun. simpl. by rewrite <- app_assoc.
Qed.

(** C4. For a slice [s] whose step is not zero, [self[s]] is a new instance
    of the class, built from one primitive read per index of the range that
    [s.indices(len(self))] gives, in range order; its length is the length
    of that range, and its [k]-th item is what [self[range[k]]] returns. *)
Theorem getitem_slice w s :
  slice_step s ≠ Some 0 →
  ∃ start stop step items c',
    let r := Range start stop step in
    slice_indices s (Z.of_nat (len (self w))) = Ok (start, stop, step) ∧
    __getitem__ len new _getitem (Sliced s) w =
      (Ok (NewInstance c'), World (self w) (calls w ++ (PrimGet <$> range_list r))) ∧
    new items = Ok c' ∧
    Z.of_nat (len c') = range_len r ∧
    ∀ k, 0 ≤ k < range_len r →
      ∃ a, (∀ log, __getitem__ len new _getitem (Int k) (World c' log) =
                     (Ok (Item a), World c' (log ++ [PrimGet k]))) ∧
           __getitem__ len new _getitem (Int (range_item r k)) w =
             (Ok (Item a), World (self w) (calls w ++ [PrimGet (range_item r k)])).
Proof using Hseq.
  intros Hstep.
  destruct (slice_indices_ok s (len (self w)) Hstep) as (start & stop & step & Hs).
  set (r := Range start stop step).
  destruct (generate_reads (range_list r) w) as (items & Hitems & Hrun);
    [by eapply range_list_in_bounds|].
  destruct (new_contents _ _ _ _ Hseq items) as (c' & Hnew & Hc').
  assert (Z.of_nat (len c') = range_len r) as Hlen.
  { rewrite (len_contents _ _ _ _ Hseq), Hc', <- (Forall2_length _ _ _ Hitems).
    apply length_range_list. }
  exists start, stop, step, items, c'. simpl. fold r. split_and!; [done| |done|done|].
  - unfold __getitem__, bind. rewrite (deslice_ok _ _ _ _ _ Hs). fold r.
    rewrite Hrun. simpl. unfold lift. by rewrite Hnew.
  - intros k Hk.
    pose proof (lookup_range_list r k Hk) as Hik.
    destruct (Forall2_lookup_l _ _ _ _ _ Hitems Hik) as (a & Ha & Hl).
    exists a. split.
    + intros log.
      destruct (getitem_in_range (World c' log) k) as (a' & Hl' & Hok); [simpl; lia|].
      simpl in *. rewrite Hc', Ha in Hl'. by injection Hl' as <-.
    + destruct (getitem_in_range w (range_item r k)) as (a' & Hl' & Hok).
      { by eapply range_item_in_bounds. }
      rewrite Hl in Hl'. by injection Hl' as <-.
Qed.

(** *** Mutable sequences *)

Section Mutable.
Hypothesis Hmut : mutable_sequence_contract contents len _delitem _insert _setitem.

Lemma posinttruncify_Int w i :
  posinttruncify len (Int i) w =
    let n := Z.of_nat (len (self w)) in
    (Ok (Z.min n (Z.max 0 (if i <? 0 then i + n else i))), w).
Proof.
  unfold posinttruncify, _posintify, bind, ret, call_len. simpl.
  destruct (i <? 0) eqn:Hneg; simpl; do 2 f_equal; repeat case_match; lia.
Qed.

(** C8. [insert(i, v)] wraps a negative [i] around, clamps the result into
    [0, n] and hands that index to the primitive: the primitive is called
    once, with an index in [0, n], and under the contract the call succeeds.
    No [IndexError] is raised on the way. *)
Theorem insert_clamps w i v :
  let n := Z.of_nat (len (self w)) in
  let j := Z.min n (Z.max 0 (if i <? 0 then i + n else i)) in
  0 ≤ j ≤ n ∧
  posinttruncify len (Int i) w = (Ok j, w) ∧
  insert len _insert (Int i) v w = mutating (PrimInsert j v) (_insert j v) w ∧
  insert len _insert (Index i) v w = insert len _insert (Int i) v w ∧
  ∃ c', insert len _insert (Int i) v w = (Ok (), World c' (calls w ++ [PrimInsert j v])) ∧
        contents c' =
          take (Z.to_nat j) (contents (self w)) ++ v :: drop (Z.to_nat j) (contents (self w)).
Proof using Hmut.
  intros n j.
  assert (0 ≤ j ≤ n) as Hj by (subst j n; lia).
  assert (insert len _insert (Int i) v w = mutating (PrimInsert j v) (_insert j v) w) as Hrun.
  { unfold insert, bind. by rewrite posinttruncify_Int. }
  split_and!; [lia..|apply posinttruncify_Int|done|done|].
  destruct (insert_contents _ _ _ _ _ Hmut (self w) j v Hj) as (c' & Hins & Hc').
  exists c'. split; [|done].
  rewrite Hrun. unfold mutating. by rewrite Hins.
Qed.

(** C10. A slice whose step is zero is refused by [slice.indices] with a
    [ValueError] before [__getitem__], [__setitem__] or [__delitem__] call
    any primitive that reads or changes an item: the instance and the log of
    calls are as they were. (The length has been asked for by then; asking
    changes nothing.) *)
Theorem zero_step_refused w s v :
  slice_step s = Some 0 →
  __getitem__ len new _getitem (Sliced s) w =
    (Err (Exc ValueError "slice step cannot be zero"), w) ∧
  __setitem__ len _getitem _delitem _insert _setitem (Sliced s) v w =
    (Err (Exc ValueError "slice step cannot be zero"), w) ∧
  __delitem__ len _delitem (Sliced s) w =
    (Err (Exc ValueError "slice step cannot be zero"), w).
Proof.
  intros Hs. unfold __getitem__, __setitem__, __delitem__, bind.
  by rewrite !deslice_zero_step.
Qed.

(** *** The loops of slice assignment and deletion *)

Lemma mutating_delitem w i :
  0 ≤ i < Z.of_nat (len (self w)) →
  ∃ c', mutating (PrimDel i) (_delitem i) w = (Ok (), World c' (calls w ++ [PrimDel i])) ∧
        contents c' = delete (Z.to_nat i) (contents (self w)).
Proof using Hmut.
  intros Hi. destruct (delitem_contents _ _ _ _ _ Hmut (self w) i Hi) as (c' & Hdel & Hc').
  exists c'. unfold mutating. by rewrite Hdel.
Qed.

Lemma mutating_insert w i v :
  0 ≤ i ≤ Z.of_nat (len (self w)) →
  ∃ c', mutating (PrimInsert i v) (_insert i v) w =
          (Ok (), World c' (calls w ++ [PrimInsert i v])) ∧
        contents c' =
          take (Z.to_nat i) (contents (self w)) ++ v :: drop (Z.to_nat i) (contents (self w)).
Proof using Hmut.
  intros Hi. destruct (insert_contents _ _ _ _ _ Hmut (self w) i v Hi) as (c' & Hins & Hc').
  exists c'. unfold mutating. by rewrite Hins.
Qed.

Lemma setitem_at_in_range w i v :
  0 ≤ i < Z.of_nat (len (self w)) →
  ∃ c', setitem_at len _setitem (Int i) v w =
          (Ok (), World c' (calls w ++ [PrimSet i v])) ∧
        contents c' = <[Z.to_nat i := v]> (contents (self w)).
Proof using Hmut.
  intros Hi. destruct (setitem_contents _ _ _ _ _ Hmut (self w) i v Hi) as (c' & Hset & Hc').
  exists c'. unfold setitem_at, bind, mutating. rewrite posintify_in_range by done.
  by rewrite Hset.
Qed.

(** Deleting the run [a, a+1, ..., a+m-1] from its last index down to its
    first: every call is within range, and what is left is the container
    without that run. *)
Lemma delete_run (m : nat) a w :
  0 ≤ a → a + Z.of_nat m ≤ Z.of_nat (len (self w)) →
  ∃ c',
    for_each (reverse (seqZ a (Z.of_nat m))) (λ i, mutating (PrimDel i) (_delitem i)) w =
      (Ok (), World c' (calls w ++ (PrimDel <$> reverse (seqZ a (Z.of_nat m))))) ∧
    contents c' =
      take (Z.to_nat a) (contents (self w)) ++ drop (Z.to_nat a + m) (contents (self w)).
Proof using Hseq Hmut.
  revert w. induction m as [|m IH]; intros w Ha Hlen.
  - exists (self w). simpl. rewrite app_nil_r, Nat.add_0_r, take_drop.
    split; [by destruct w | done].
  - rewrite seqZ_S, reverse_snoc. cbn [for_each]. unfold bind at 1.
    destruct (mutating_delitem w (a + Z.of_nat m)) as (c1 & -> & Hc1); [lia|].
    pose proof (len_contents _ _ _ _ Hseq) as Hl. rewrite Hl in Hlen.
    destruct (IH (World c1 (calls w ++ [PrimDel (a + Z.of_nat m)]))) as (c' & -> & Hc').
    { lia. }
    { simpl. rewrite Hl, Hc1, length_delete by (apply lookup_lt_is_Some; lia). lia. }
    exists c'. simpl in *. split; [by rewrite <- app_assoc|].
    rewrite Hc', Hc1, delete_take_drop.
    replace (Z.to_nat (a + Z.of_nat m)) with (Z.to_nat a + m)%nat by lia.
    rewrite take_app_le, take_take by (rewrite length_take; lia).
    rewrite drop_app_length' by (rewrite length_take; lia).
    do 2 f_equal; lia.
Qed.

Lemma enumerate_cons {B} (x : B) xs start :
  enumerate (x :: xs) start = (start, x) :: enumerate xs (start + 1).
Proof.
  unfold enumerate. cbn [length]. rewrite seqZ_cons by lia. simpl.
  do 3 f_equal; lia.
Qed.

(** Inserting the items one at a time at [a], [a+1], ...: every call is
    within range, and the items end up in order in front of what was at
    [a]. *)
Lemma insert_run items a w :
  0 ≤ a ≤ Z.of_nat (len (self w)) →
  ∃ c',
    for_each (enumerate items a) (λ '(i, x), mutating (PrimInsert i x) (_insert i x)) w =
      (Ok (), World c' (calls w ++ ((λ '(i, x), PrimInsert i x) <$> enumerate items a))) ∧
    contents c' =
      take (Z.to_nat a) (contents (self w)) ++ items ++ drop (Z.to_nat a) (contents (self w)).
Proof using Hseq Hmut.
  revert a w. induction items as [|x items IH]; intros a w Ha.
  - exists (self w). simpl. rewrite app_nil_r, take_drop.
    split; [by destruct w | done].
  - rewrite enumerate_cons. cbn [for_each]. unfold bind at 1.
    destruct (mutating_insert w a x Ha) as (c1 & -> & Hc1).
    pose proof (len_contents _ _ _ _ Hseq) as Hl.
    assert (Z.to_nat a ≤ length (contents (self w)))%nat as Hle by (rewrite <- Hl; lia).
    destruct (IH (a + 1) (World c1 (calls w ++ [PrimInsert a x]))) as (c' & -> & Hc').
    { simpl. rewrite Hl, Hc1, length_app, length_take_le by done. simpl. lia. }
    exists c'. simpl in *. split; [by rewrite <- app_assoc|].
    rewrite Hc', Hc1.
    replace (Z.to_nat (a + 1)) with (S (Z.to_nat a)) by lia.
    set (pre := take (Z.to_nat a) (contents (self w))).
    set (post := drop (Z.to_nat a) (contents (self w))).
    assert (length pre = Z.to_nat a) as Hpre by (by apply length_take_le).
    replace (pre ++ x :: post) with ((pre ++ [x]) ++ post) by (by rewrite <- app_assoc).
    rewrite take_app_length', drop_app_length' by (rewrite length_app; simpl; lia).
    by rewrite <- app_assoc.
Qed.

(** [Sequence.__iter__] on a container of length [n], from index [i] on:
    with more fuel than the [n - i] items left it never runs out, reads each
    of them once and stops at the [IndexError] of [self[n]]. *)
Lemma iter_self_enough_fuel (fuel : nat) i w :
  0 ≤ i ≤ Z.of_nat (len (self w)) →
  (Z.to_nat (Z.of_nat (len (self w)) - i) < fuel)%nat →
  iter_self len _getitem fuel i w =
    (Ok (drop (Z.to_nat i) (contents (self w))),
     World (self w) (calls w ++ (PrimGet <$> seqZ i (Z.of_nat (len (self w)) - i)))).
Proof using Hseq.
  revert i w. induction fuel as [|fuel IH]; intros i w Hi Hfuel; [lia|].
  cbn [iter_self]. unfold try_except, bind.
  pose proof (len_contents _ _ _ _ Hseq) as Hl.
  destruct (decide (i = Z.of_nat (len (self w)))) as [->|Hne].
  - rewrite getitem_at_out_of_range by lia. simpl.
    rewrite Z.sub_diag, seqZ_nil, drop_ge, app_nil_r by (rewrite ?Hl; lia).
    by destruct w.
  - rewrite getitem_at_in_range by lia.
    destruct (in_range_lookup (self w) i) as (a & Hla & ->); [lia|].
    rewrite (IH (i + 1) (World (self w) (calls w ++ [PrimGet i]))) by (simpl; lia).
    simpl. rewrite (seqZ_cons i) by lia. rewrite fmap_cons, <- app_assoc. simpl.
    rewrite (drop_S _ a (Z.to_nat i)) by done.
    do 5 f_equal; [|f_equal]; lia.
Qed.

(** [tuple(value)] of an iterable value: its items, at the cost of one read
    per item when the value is the container itself. *)
Lemma tuple_items v items w :
  source_items contents (self w) v = Some items →
  tuple len _getitem v w =
    (Ok items, World (self w) (calls w ++ source_reads len (self w) v)).
Proof using Hseq.
  unfold source_items, source_reads, tuple. destruct (iterates v); intros [= <-].
  - unfold ret. rewrite app_nil_r. by destruct w.
  - unfold bind, call_len.
    rewrite iter_self_enough_fuel by lia. by rewrite Z.sub_0_r.
Qed.

Lemma delete_run_Z m a w :
  0 ≤ a → a + Z.max 0 m ≤ Z.of_nat (len (self w)) →
  ∃ c',
    for_each (reverse (seqZ a m)) (λ i, mutating (PrimDel i) (_delitem i)) w =
      (Ok (), World c' (calls w ++ (PrimDel <$> reverse (seqZ a m)))) ∧
    contents c' =
      take (Z.to_nat a) (contents (self w)) ++
      drop (Z.to_nat a + Z.to_nat m) (contents (self w)).
Proof using Hseq Hmut.
  intros Ha Hm. destruct (decide (0 ≤ m)) as [Hpos|Hneg].
  - pose proof (delete_run (Z.to_nat m) a w) as Hrun.
    rewrite Z2Nat.id in Hrun by done. apply Hrun; lia.
  - rewrite seqZ_nil by lia. replace (Z.to_nat m) with 0%nat by lia.
    apply (delete_run 0); lia.
Qed.

(** The source of a contiguous-slice assignment: a snapshot when it is the
    container, the items of the iterator otherwise. *)
Lemma contiguous_source v items w :
  source_items contents (self w) v = Some items →
  match iterates v with
  | SameInstance => tuple len _getitem v
  | _ => iter v
  end w = (Ok items, World (self w) (calls w ++ source_reads len (self w) v)).
Proof using Hseq.
  intros Hsrc. destruct (iterates v) eqn:Hv.
  - unfold source_items in Hsrc. by rewrite Hv in Hsrc.
  - unfold source_items, source_reads, iter in *. rewrite Hv in *.
    injection Hsrc as <-. unfold ret. rewrite app_nil_r. by destruct w.
  - by apply tuple_items.
Qed.

(** Assignment to a contiguous slice: the positions from start to stop are
    deleted from the last one down, then the items are inserted one by one
    from start on; every primitive call is within range, and the items take
    the place of the deleted run. *)
Lemma setitem_contiguous w s v items start stop :
  slice_step s = None ∨ slice_step s = Some 1 →
  slice_indices s (Z.of_nat (len (self w))) = Ok (start, stop, 1) →
  source_items contents (self w) v = Some items →
  ∃ c',
    __setitem__ len _getitem _delitem _insert _setitem (Sliced s) v w =
      (Ok (),
       World c' (calls w ++ source_reads len (self w) v
                         ++ (PrimDel <$> reverse (seqZ start (stop - start)))
                         ++ ((λ '(i, x), PrimInsert i x) <$> enumerate items start))) ∧
    contents c' =
      take (Z.to_nat start) (contents (self w)) ++ items ++
      drop (Z.to_nat (Z.max start stop)) (contents (self w)).
Proof using Hseq Hmut.
  intros Hstep Hs Hsrc.
  pose proof (slice_indices_bounds _ _ _ _ _ Hs) as (_ & _ & Hup & _).
  destruct Hup as [Hstart Hstop]; [lia|].
  pose proof (len_contents _ _ _ _ Hseq) as Hl.
  unfold __setitem__, bind. rewrite (deslice_ok _ _ _ _ _ Hs).
  assert (match slice_step s with Some step => negb (step =? 1) | None => false end = false)
    as -> by (by destruct Hstep as [-> | ->]).
  unfold try_except. rewrite (contiguous_source _ _ _ Hsrc).
  unfold range_reversed. rewrite range_list_step_1. cbn [range_start].
  set (w1 := World (self w) (calls w ++ source_reads len (self w) v)).
  destruct (delete_run_Z (stop - start) start w1) as (c1 & -> & Hc1); [lia | simpl; lia |].
  simpl in Hc1.
  assert (length (take (Z.to_nat start) (contents (self w))) = Z.to_nat start) as Hpre
    by (apply length_take_le; rewrite <- Hl; lia).
  destruct (insert_run items start
              (World c1 (calls w1 ++ (PrimDel <$> reverse (seqZ start (stop - start))))))
    as (c' & -> & Hc').
  { simpl. rewrite Hl, Hc1, length_app, Hpre. lia. }
  exists c'. simpl in *. split; [by rewrite <- !app_assoc|].
  rewrite Hc', Hc1, take_app_length', drop_app_length' by done.
  do 3 f_equal. lia.
Qed.

(** C2, as the code has it. On a container of [n >= 1] items,
    [self[:-1] = self] returns: the container is read once from end to end
    before anything is deleted, and afterwards it holds its [n] old items
    followed by the last of them again, [n + 1] items in all. *)
Theorem setitem_all_but_last_self w v :
  iterates v = SameInstance →
  contents (self w) ≠ [] →
  let old := contents (self w) in
  let n := length old in
  ∃ c',
    __setitem__ len _getitem _delitem _insert _setitem (Sliced (Slice None (Some (-1)) None)) v w =
      (Ok (),
       World c' (calls w ++ (PrimGet <$> seqZ 0 (Z.of_nat n))
                         ++ (PrimDel <$> reverse (seqZ 0 (Z.of_nat n - 1)))
                         ++ ((λ '(i, x), PrimInsert i x) <$> enumerate old 0))) ∧
    contents c' = old ++ drop (n - 1) old ∧
    length (contents c') = S n.
Proof using Hseq Hmut.
  intros Hv Hne old n.
  pose proof (len_contents _ _ _ _ Hseq (self w)) as Hl. fold old n in Hl.
  assert (0 < n)%nat as Hn
    by (subst n old; destruct (contents (self w)); [done | simpl; lia]).
  destruct (setitem_contiguous w (Slice None (Some (-1)) None) v old 0 (Z.of_nat n - 1))
    as (c' & Hrun & Hc').
  - by left.
  - unfold slice_indices, clamp_bound. simpl. rewrite Hl.
    assert ((Z.of_nat n <? 0) = false) as -> by lia.
    assert ((-1 + Z.of_nat n <? 0) = false) as -> by lia.
    do 3 f_equal. lia.
  - unfold source_items. by rewrite Hv.
  - exists c'. unfold source_reads in Hrun. rewrite Hv, Hl, Z.sub_0_r in Hrun.
    split; [done|]. fold old in Hc'. simpl in Hc'.
    replace (Z.to_nat (Z.max 0 (Z.of_nat n - 1))) with (n - 1)%nat in Hc' by lia.
    split; [done|].
    rewrite Hc', length_app, length_drop. fold n. lia.
Qed.

(** Storing items pairwise at indices within range: one primitive store per
    pair, in the order of the indices. *)
Lemma set_run indices items w :
  Forall (λ i, 0 ≤ i < Z.of_nat (len (self w))) indices →
  ∃ c',
    for_each (zip indices items) (λ '(i, x), setitem_at len _setitem (Int i) x) w =
      (Ok (), World c' (calls w ++ ((λ '(i, x), PrimSet i x) <$> zip indices items))) ∧
    contents c' = store_all (contents (self w)) (zip indices items).
Proof using Hseq Hmut.
  revert items w. induction indices as [|i rest IH]; intros items w Hall.
  - exists (self w). simpl. rewrite app_nil_r. split; [by destruct w | done].
  - destruct items as [|x items].
    { exists (self w). simpl. rewrite app_nil_r. split; [by destruct w | done]. }
    apply Forall_cons in Hall as [Hi Hrest].
    cbn [zip zip_with for_each]. unfold bind at 1.
    destruct (setitem_at_in_range w i x Hi) as (c1 & -> & Hc1).
    pose proof (len_contents _ _ _ _ Hseq) as Hl.
    destruct (IH items (World c1 (calls w ++ [PrimSet i x]))) as (c' & -> & Hc').
    { simpl. rewrite Hl, Hc1, length_insert, <- Hl. done. }
    exists c'. simpl in *. split; [by rewrite <- app_assoc|].
    by rewrite Hc', Hc1.
Qed.

Lemma size_mismatch_not_zero_step a b : size_mismatch a b ≠ "slice step cannot be zero".
Proof. unfold size_mismatch. simpl. discriminate. Qed.

Lemma source_reads_read_only c v :
  Forall (λ e : call A, is_mutation e = false) (source_reads len c v).
Proof.
  unfold source_reads. destruct (iterates v); try constructor.
  apply Forall_fmap, Forall_forall. done.
Qed.

(** C5. Assignment to a slice whose step is given and is not 1, from an
    iterable value. With [r] the range of the slice: when the value yields
    as many items as [r] has indices, item [k] is stored at [r[k]], pairwise
    and in range order, and no other position changes; otherwise a
    [ValueError] naming both lengths is raised and the container is as it
    was, the only primitive calls made being the reads of [tuple(value)]
    when the value is the container. That [ValueError] is raised exactly
    when the slice has a range and the two lengths differ. *)
Theorem setitem_extended_slice w s step v items :
  slice_step s = Some step → step ≠ 1 →
  source_items contents (self w) v = Some items →
  let n := Z.of_nat (len (self w)) in
  let w1 := World (self w) (calls w ++ source_reads len (self w) v) in
  Forall (λ e : call A, is_mutation e = false) (source_reads len (self w) v) ∧
  (∀ start stop step', slice_indices s n = Ok (start, stop, step') →
     let r := Range start stop step' in
     (Z.of_nat (length items) ≠ range_len r →
        __setitem__ len _getitem _delitem _insert _setitem (Sliced s) v w =
          (Err (Exc ValueError (size_mismatch (Z.of_nat (length items)) (range_len r))), w1)) ∧
     (Z.of_nat (length items) = range_len r →
        ∃ c',
          __setitem__ len _getitem _delitem _insert _setitem (Sliced s) v w =
            (Ok (),
             World c' (calls w1 ++ ((λ '(i, x), PrimSet i x) <$> zip (range_list r) items))) ∧
          (∀ (k : nat) x, items !! k = Some x →
             contents c' !! Z.to_nat (range_item r (Z.of_nat k)) = Some x) ∧
          (∀ j : nat, Z.of_nat j ∉ range_list r →
             contents c' !! j = contents (self w) !! j))) ∧
  ((∃ a b w',
      __setitem__ len _getitem _delitem _insert _setitem (Sliced s) v w =
        (Err (Exc ValueError (size_mismatch a b)), w')) ↔
   (∃ start stop step',
      slice_indices s n = Ok (start, stop, step') ∧
      Z.of_nat (length items) ≠ range_len (Range start stop step'))).
Proof using Hseq Hmut.
  intros Hstep Hne Hsrc n w1.
  pose proof (len_contents _ _ _ _ Hseq) as Hl.
  assert (∀ start stop step', slice_indices s n = Ok (start, stop, step') →
            __setitem__ len _getitem _delitem _insert _setitem (Sliced s) v w =
              (if negb (Z.of_nat (length items) =? range_len (Range start stop step'))
               then raise (Exc ValueError (size_mismatch (Z.of_nat (length items))
                                             (range_len (Range start stop step'))))
               else for_each (zip (range_list (Range start stop step')) items)
                             (λ '(i, x), setitem_at len _setitem (Int i) x)) w1) as Hrun.
  { intros start stop step' Hs. unfold __setitem__, bind.
    rewrite (deslice_ok _ _ _ _ _ Hs), Hstep.
    assert (negb (step =? 1) = true) as -> by lia.
    unfold try_except. by rewrite (tuple_items _ _ _ Hsrc). }
  assert (∀ start stop step', slice_indices s n = Ok (start, stop, step') →
            Z.of_nat (length items) ≠ range_len (Range start stop step') →
            __setitem__ len _getitem _delitem _insert _setitem (Sliced s) v w =
              (Err (Exc ValueError (size_mismatch (Z.of_nat (length items))
                                      (range_len (Range start stop step')))), w1)) as Hbad.
  { intros start stop step' Hs Hlen. rewrite (Hrun _ _ _ Hs).
    by assert (negb (Z.of_nat (length items) =? range_len (Range start stop step')) = true)
      as -> by lia. }
  assert (∀ start stop step', slice_indices s n = Ok (start, stop, step') →
            Z.of_nat (length items) = range_len (Range start stop step') →
            ∃ c',
              __setitem__ len _getitem _delitem _insert _setitem (Sliced s) v w =
                (Ok (),
                 World c' (calls w1 ++ ((λ '(i, x), PrimSet i x)
                                          <$> zip (range_list (Range start stop step')) items))) ∧
              contents c' =
                store_all (contents (self w)) (zip (range_list (Range start stop step')) items))
    as Hgood.
  { intros start stop step' Hs Hlen. rewrite (Hrun _ _ _ Hs).
    assert (negb (Z.of_nat (length items) =? range_len (Range start stop step')) = false)
      as -> by lia.
    apply (set_run _ items w1). by eapply range_list_in_bounds. }
  split; [apply source_reads_read_only|]. split.
  - intros start stop step' Hs r. split; [by apply Hbad|].
    intros Hlen. destruct (Hgood _ _ _ Hs Hlen) as (c' & Hok & Hc').
    exists c'. split; [done|].
    pose proof (slice_indices_bounds _ _ _ _ _ Hs) as (_ & Hstep0 & _).
    split.
    + intros k x Hx. rewrite Hc'.
      apply lookup_lt_Some in Hx as Hk.
      apply (store_all_lookup _ _ _ k); [by apply NoDup_range_list| | |done].
      * rewrite <- Hl. by eapply range_list_in_bounds.
      * rewrite <- (Nat2Z.id k) at 1. apply lookup_range_list. fold r. lia.
    + intros j Hj. rewrite Hc'. apply store_all_other.
      intros i x Hin%elem_of_zip_l <-.
      apply Hj. replace (Z.of_nat (Z.to_nat i)) with i; [done|].
      pose proof (range_list_in_bounds _ _ _ _ _ Hs) as Hall.
      rewrite Forall_forall in Hall. specialize (Hall i Hin). lia.
  - split.
    + intros (a & b & w' & Herr).
      destruct (decide (step = 0)) as [->|Hnz].
      * unfold __setitem__, bind in Herr. rewrite deslice_zero_step in Herr by done.
        assert (size_mismatch a b = "slice step cannot be zero") as Hmsg by congruence.
        by apply size_mismatch_not_zero_step in Hmsg.
      * destruct (slice_indices_ok s (len (self w))) as (start & stop & step' & Hs).
        { rewrite Hstep. by intros [= ->]. }
        exists start, stop, step'. split; [done|]. intros Hlen.
        destruct (Hgood _ _ _ Hs Hlen) as (c' & Hok & _). by rewrite Hok in Herr.
    + intros (start & stop & step' & Hs & Hlen). eauto.
Qed.

(** *** Deleting a slice that goes up *)

Lemma calls_valid_descending (ds : list Z) (n : Z) :
  StronglySorted (λ a b, b < a) ds →
  Forall (λ i, 0 ≤ i < n) ds →
  calls_valid n (PrimDel (A:=A) <$> ds) = true.
Proof.
  revert n. induction ds as [|i rest IH]; intros n Hsorted Hall; [done|].
  apply StronglySorted_inv in Hsorted as [Hsorted Hrest].
  apply Forall_cons in Hall as [Hi Hall]. simpl.
  rewrite IH; [lia | done |].
  rewrite Forall_forall in *. intros j Hj.
  specialize (Hrest j Hj). specialize (Hall j Hj). lia.
Qed.

(** Deleting positions from the highest down: each call finds its index
    within the range of the container as it is by then, and what is left are
    the items at the other positions. *)
Lemma delete_descending (ds : list Z) w :
  StronglySorted (λ a b, b < a) ds →
  Forall (λ i, 0 ≤ i < Z.of_nat (len (self w))) ds →
  ∃ c',
    for_each ds (λ i, mutating (PrimDel i) (_delitem i)) w =
      (Ok (), World c' (calls w ++ (PrimDel <$> ds))) ∧
    contents c' = omit_positions ds 0 (contents (self w)).
Proof using Hseq Hmut.
  revert w. induction ds as [|i rest IH]; intros w Hsorted Hall.
  - exists (self w). simpl. rewrite app_nil_r, omit_positions_below by done.
    split; [by destruct w | done].
  - apply StronglySorted_inv in Hsorted as [Hsorted Hrest].
    apply Forall_cons in Hall as [Hi Hall].
    pose proof (len_contents _ _ _ _ Hseq) as Hl.
    cbn [for_each]. unfold bind at 1.
    destruct (mutating_delitem w i Hi) as (c1 & -> & Hc1).
    destruct (IH (World c1 (calls w ++ [PrimDel i]))) as (c' & -> & Hc'); [done| |].
    { simpl. rewrite Hl, Hc1, length_delete by (apply lookup_lt_is_Some; rewrite <- Hl; lia).
      rewrite <- Hl. rewrite Forall_forall in *. intros j Hj.
      specialize (Hrest j Hj). specialize (Hall j Hj). lia. }
    exists c'. simpl in *. split; [by rewrite <- app_assoc|].
    rewrite Hc', Hc1, omit_positions_delete by (done || rewrite <- Hl; lia).
    by rewrite Z.sub_0_r.
Qed.

(** X13. [del self[s]] for a slice whose step is absent or positive: the
    indices of the range are deleted from the last one down, every primitive
    call is within range, and exactly the positions of the range are gone. *)
Lemma delitem_slice_upward w s start stop step :
  slice_indices s (Z.of_nat (len (self w))) = Ok (start, stop, step) →
  0 < step →
  let r := Range start stop step in
  ∃ c',
    __delitem__ len _delitem (Sliced s) w =
      (Ok (), World c' (calls w ++ (PrimDel <$> range_reversed r))) ∧
    StronglySorted (λ a b, b < a) (range_reversed r) ∧
    calls_valid (Z.of_nat (len (self w))) (PrimDel (A:=A) <$> range_reversed r) = true ∧
    contents c' = omit_positions (range_list r) 0 (contents (self w)).
Proof using Hseq Hmut.
  intros Hs Hstep r.
  pose proof (range_reversed_descending r Hstep) as Hsorted.
  assert (Forall (λ i, 0 ≤ i < Z.of_nat (len (self w))) (range_reversed r)) as Hall.
  { unfold range_reversed. apply Forall_reverse. by eapply range_list_in_bounds. }
  destruct (delete_descending _ w Hsorted Hall) as (c' & Hrun & Hc').
  exists c'. split_and!; [|done|by apply calls_valid_descending|].
  - unfold __delitem__, bind. by rewrite (deslice_ok _ _ _ _ _ Hs).
  - rewrite Hc'. clear. generalize (contents (self w)) 0.
    intros l. induction l as [|x l IH]; intros k; [done|]. simpl.
    rewrite IH. unfold range_reversed.
    destruct (decide (k ∈ range_list r)).
    + by rewrite decide_True by (by apply elem_of_reverse).
    + by rewrite decide_False by (by rewrite elem_of_reverse).
Qed.

(** *** One index: stores, deletions and insertions *)

(** The index the primitives see for [i] on a container of length [n]. *)
Lemma posintify_wrapped w i :
  - Z.of_nat (len (self w)) ≤ i < Z.of_nat (len (self w)) →
  posintify len (Int i) w = (Ok (if i <? 0 then i + Z.of_nat (len (self w)) else i), w).
Proof.
  intros Hi. rewrite posintify_Int. simpl.
  destruct (i <? 0) eqn:Hneg.
  - by assert ((i + Z.of_nat (len (self w)) <? 0)
               || (Z.of_nat (len (self w)) <=? i + Z.of_nat (len (self w))) = false)
      as -> by lia.
  - by assert ((i <? 0) || (Z.of_nat (len (self w)) <=? i) = false) as -> by lia.
Qed.

(** X1. [self[i] = v] for [-n <= i < n] is one primitive store at the
    wrapped index; the length stays [n], the other positions keep their
    items, and [self[i]] read afterwards returns [v]. *)
Theorem setitem_getitem_round_trip w i v :
  let n := Z.of_nat (len (self w)) in
  let j := if i <? 0 then i + n else i in
  - n ≤ i < n →
  ∃ c',
    __setitem__ len _getitem _delitem _insert _setitem (Int i) v w =
      (Ok (), World c' (calls w ++ [PrimSet j (as_item v)])) ∧
    contents c' = <[Z.to_nat j := as_item v]> (contents (self w)) ∧
    len c' = len (self w) ∧
    ∀ log, __getitem__ len new _getitem (Int i) (World c' log) =
             (Ok (Item (as_item v)), World c' (log ++ [PrimGet j])).
Proof using Hseq Hmut.
  intros n j Hi.
  pose proof (len_contents _ _ _ _ Hseq) as Hl.
  assert (0 ≤ j < n) as Hj by (subst j; destruct (i <? 0) eqn:?; lia).
  destruct (setitem_contents _ _ _ _ _ Hmut (self w) j (as_item v) Hj) as (c' & Hset & Hc').
  assert (len c' = len (self w)) as Hlen by (by rewrite !Hl, Hc', length_insert).
  exists c'. split_and!; [|done|done|].
  - unfold __setitem__, setitem_at, bind, mutating.
    rewrite posintify_wrapped by done. fold n j. by rewrite Hset.
  - intros log. unfold __getitem__, getitem_at, bind, reading.
    rewrite posintify_wrapped by (simpl; rewrite Hlen; done).
    simpl. rewrite Hlen. fold n j.
    rewrite (getitem_contents _ _ _ _ Hseq c' j (as_item v)); [done|lia|].
    rewrite Hc'. apply list_lookup_insert_eq. rewrite <- Hl. lia.
Qed.

(** X2. [del self[i]] for [-n <= i < n] is one primitive deletion at the
    wrapped index: the item there is gone and the container is one
    shorter. *)
Theorem delitem_index w i :
  let n := Z.of_nat (len (self w)) in
  let j := if i <? 0 then i + n else i in
  - n ≤ i < n →
  ∃ c',
    __delitem__ len _delitem (Int i) w = (Ok (), World c' (calls w ++ [PrimDel j])) ∧
    contents c' = delete (Z.to_nat j) (contents (self w)) ∧
    S (len c') = len (self w).
Proof using Hseq Hmut.
  intros n j Hi.
  pose proof (len_contents _ _ _ _ Hseq) as Hl.
  assert (0 ≤ j < n) as Hj by (subst j; destruct (i <? 0) eqn:?; lia).
  destruct (mutating_delitem w j Hj) as (c' & Hdel & Hc').
  exists c'. split_and!; [|done|].
  - unfold __delitem__, bind. rewrite posintify_wrapped by done. by fold n j.
  - rewrite !Hl, Hc', length_delete by (apply lookup_lt_is_Some; rewrite <- Hl; lia).
    subst n. rewrite Hl in Hj. lia.
Qed.

(** X3. An [int] index outside [-n, n) makes [self[i] = v] and
    [del self[i]] raise [IndexError] before any primitive is called: the
    container and the log are as they were. *)
Theorem index_out_of_range_refused w i v :
  i < - Z.of_nat (len (self w)) ∨ Z.of_nat (len (self w)) ≤ i →
  __setitem__ len _getitem _delitem _insert _setitem (Int i) v w =
    (Err (Exc IndexError "index out of range"), w) ∧
  __delitem__ len _delitem (Int i) w = (Err (Exc IndexError "index out of range"), w).
Proof.
  intros Hi. unfold __setitem__, setitem_at, __delitem__, bind.
  by rewrite posintify_out_of_range.
Qed.

(** X4. A subscript that is neither an [int], nor convertible by
    [__index__], nor (for reading, storing and deleting) a slice, is refused
    with [TypeError] by all four wrappers, whatever the length of the
    container, and a slice is refused by [insert]; nothing is called. *)
Theorem non_integer_subscript_refused w v a s :
  __getitem__ len new _getitem Other w = (Err (Exc TypeError "indices must be integers"), w) ∧
  __setitem__ len _getitem _delitem _insert _setitem Other v w =
    (Err (Exc TypeError "indices must be integers"), w) ∧
  __delitem__ len _delitem Other w = (Err (Exc TypeError "indices must be integers"), w) ∧
  insert len _insert Other a w = (Err (Exc TypeError "indices must be integers"), w) ∧
  insert len _insert (Sliced s) a w = (Err (Exc TypeError "indices must be integers"), w).
Proof.
  unfold __getitem__, getitem_at, __setitem__, setitem_at, __delitem__, insert,
    posintify, posinttruncify, _posintify, bind, raise.
  by split_and!.
Qed.

(** X5. After [self.insert(i, v)] the container is one longer, [v] sits at
    the clamped index [j], the items before [j] are where they were and the
    items from [j] on have moved up by one. *)
Theorem insert_getitem_round_trip w i v :
  let n := Z.of_nat (len (self w)) in
  let j := Z.min n (Z.max 0 (if i <? 0 then i + n else i)) in
  ∃ c',
    insert len _insert (Int i) v w = (Ok (), World c' (calls w ++ [PrimInsert j v])) ∧
    len c' = S (len (self w)) ∧
    (∀ log, __getitem__ len new _getitem (Int j) (World c' log) =
              (Ok (Item v), World c' (log ++ [PrimGet j]))) ∧
    (∀ k : nat, (k < Z.to_nat j)%nat → contents c' !! k = contents (self w) !! k) ∧
    (∀ k : nat, (Z.to_nat j ≤ k)%nat → contents c' !! S k = contents (self w) !! k).
Proof using Hseq Hmut.
  intros n j.
  pose proof (len_contents _ _ _ _ Hseq) as Hl.
  assert (0 ≤ j ≤ n) as Hj by (subst j n; lia).
  destruct (mutating_insert w j v Hj) as (c' & Hins & Hc').
  assert (length (take (Z.to_nat j) (contents (self w))) = Z.to_nat j) as Hpre
    by (apply length_take_le; rewrite <- Hl; lia).
  assert (len c' = S (len (self w))) as Hlen.
  { rewrite (Hl c'), Hc', length_app, Hpre. simpl. rewrite length_drop, <- Hl. lia. }
  exists c'. split_and!; [|done|..].
  - unfold insert, bind. rewrite posinttruncify_Int. by fold n j.
  - intros log. unfold __getitem__, getitem_at, bind, reading.
    rewrite posintify_in_range by (simpl; lia). simpl.
    rewrite (getitem_contents _ _ _ _ Hseq c' j v); [done|lia|].
    rewrite Hc'. by rewrite list_lookup_middle.
  - intros k Hk. rewrite Hc', lookup_app_l by lia. by apply lookup_take_lt.
  - intros k Hk. rewrite Hc', lookup_app_r by lia. rewrite Hpre.
    replace (S k - Z.to_nat j)%nat with (S (k - Z.to_nat j)) by lia. simpl.
    rewrite lookup_drop. f_equal. lia.
Qed.

(** X6. Deleting at the index where an item has just been inserted gives
    back the contents there were before the insertion. *)
Theorem insert_delitem_round_trip w i v :
  let n := Z.of_nat (len (self w)) in
  let j := Z.min n (Z.max 0 (if i <? 0 then i + n else i)) in
  ∃ c' c'',
    insert len _insert (Int i) v w = (Ok (), World c' (calls w ++ [PrimInsert j v])) ∧
    __delitem__ len _delitem (Int j) (World c' (calls w ++ [PrimInsert j v])) =
      (Ok (), World c'' (calls w ++ [PrimInsert j v; PrimDel j])) ∧
    contents c'' = contents (self w).
Proof using Hseq Hmut.
  intros n j.
  pose proof (len_contents _ _ _ _ Hseq) as Hl.
  assert (0 ≤ j ≤ n) as Hj by (subst j n; lia).
  destruct (mutating_insert w j v Hj) as (c' & Hins & Hc').
  assert (length (take (Z.to_nat j) (contents (self w))) = Z.to_nat j) as Hpre
    by (apply length_take_le; rewrite <- Hl; lia).
  assert (Z.of_nat (len c') = n + 1) as Hlen.
  { rewrite (Hl c'), Hc', length_app, Hpre. simpl. rewrite length_drop, <- Hl. lia. }
  destruct (mutating_delitem (World c' (calls w ++ [PrimInsert j v])) j) as (c'' & Hdel & Hc'');
    [simpl; lia|].
  exists c', c''. split_and!.
  - unfold insert, bind. rewrite posinttruncify_Int. by fold n j.
  - unfold __delitem__, bind. rewrite posintify_in_range by (simpl; lia).
    rewrite Hdel. simpl. by rewrite <- app_assoc.
  - simpl in Hc''. rewrite Hc'', Hc'. rewrite <- Hpre at 1.
    rewrite delete_middle. apply take_drop.
Qed.

(** *** What a slice reads *)

(** The run of a slice read, for any slice that has a range. *)
Lemma getitem_slice_run w s start stop step :
  slice_indices s (Z.of_nat (len (self w))) = Ok (start, stop, step) →
  ∃ items c',
    Forall2 (λ i a, contents (self w) !! Z.to_nat i = Some a)
      (range_list (Range start stop step)) items ∧
    contents c' = items ∧
    __getitem__ len new _getitem (Sliced s) w =
      (Ok (NewInstance c'),
       World (self w) (calls w ++ (PrimGet <$> range_list (Range start stop step)))).
Proof using Hseq.
  intros Hs.
  destruct (generate_reads (range_list (Range start stop step)) w) as (items & Hitems & Hrun);
    [by eapply range_list_in_bounds|].
  destruct (new_contents _ _ _ _ Hseq items) as (c' & Hnew & Hc').
  exists items, c'. split_and!; [done..|].
  unfold __getitem__, bind. rewrite (deslice_ok _ _ _ _ _ Hs), Hrun. simpl.
  unfold lift. by rewrite Hnew.
Qed.

Lemma items_read_lookup (l : list A) indices items (k : nat) :
  Forall2 (λ i a, l !! Z.to_nat i = Some a) indices items →
  items !! k = indices !! k ≫= λ i, l !! Z.to_nat i.
Proof.
  intros Hitems. revert k. induction Hitems as [|i a indices items Hi _ IH]; intros k.
  - done.
  - destruct k as [|k]; simpl; [done | apply IH].
Qed.

(** Reading a slice of step 1 whose normalised bounds are known. *)
Lemma getitem_run_step_1 w s start stop :
  slice_indices s (Z.of_nat (len (self w))) = Ok (start, stop, 1) →
  ∃ c',
    __getitem__ len new _getitem (Sliced s) w =
      (Ok (NewInstance c'),
       World (self w) (calls w ++ (PrimGet <$> seqZ start (stop - start)))) ∧
    contents c' = drop (Z.to_nat start) (take (Z.to_nat stop) (contents (self w))).
Proof using Hseq.
  intros Hs.
  pose proof (slice_indices_bounds _ _ _ _ _ Hs) as (_ & _ & Hup & _).
  destruct Hup as [Hstart Hstop]; [lia|].
  destruct (getitem_slice_run w s start stop 1 Hs) as (items & c' & Hitems & Hc' & Hrun).
  rewrite range_list_step_1 in Hitems, Hrun.
  exists c'. split; [done|].
  rewrite Hc'. apply list_eq. intros k.
  rewrite (items_read_lookup _ _ _ k Hitems), lookup_drop.
  destruct (decide (Z.of_nat k < stop - start)) as [Hk|Hk].
  - rewrite lookup_seqZ_lt, lookup_take_lt by lia. simpl. f_equal. lia.
  - rewrite lookup_seqZ_ge, lookup_take_ge by lia. done.
Qed.

(** X7. [self[a:b]] (no step, or step 1) is a new instance holding the
    items from the normalised start up to the normalised stop, in order:
    the container's list cut at stop, then from start on. One primitive read
    per item, the container untouched. *)
Theorem getitem_contiguous_slice w s :
  slice_step s = None ∨ slice_step s = Some 1 →
  ∃ start stop c',
    slice_indices s (Z.of_nat (len (self w))) = Ok (start, stop, 1) ∧
    __getitem__ len new _getitem (Sliced s) w =
      (Ok (NewInstance c'),
       World (self w) (calls w ++ (PrimGet <$> seqZ start (stop - start)))) ∧
    contents c' = drop (Z.to_nat start) (take (Z.to_nat stop) (contents (self w))).
Proof using Hseq.
  intros Hstep.
  destruct (slice_indices_ok s (len (self w))) as (start & stop & step & Hs).
  { by destruct Hstep as [-> | ->]. }
  pose proof (slice_indices_bounds _ _ _ _ _ Hs) as (Hstep' & _).
  assert (step = 1) as -> by (by destruct Hstep as [Heq | Heq]; rewrite Heq in Hstep').
  destruct (getitem_run_step_1 w s start stop Hs) as (c' & Hrun & Hc').
  by exists start, stop, c'.
Qed.

(** X8. [self[:]] is a copy: a new instance with the items of the
    container, which is read once from end to end and not changed. *)
Theorem getitem_full_slice_copies w :
  ∃ c',
    __getitem__ len new _getitem (Sliced (Slice None None None)) w =
      (Ok (NewInstance c'),
       World (self w) (calls w ++ (PrimGet <$> seqZ 0 (Z.of_nat (len (self w)))))) ∧
    contents c' = contents (self w).
Proof using Hseq.
  pose proof (len_contents _ _ _ _ Hseq) as Hl.
  assert (slice_indices (Slice None None None) (Z.of_nat (len (self w)))
          = Ok (0, Z.of_nat (len (self w)), 1)) as Hs.
  { unfold slice_indices. simpl.
    by assert ((Z.of_nat (len (self w)) <? 0) = false) as -> by lia. }
  destruct (getitem_slice_run w _ _ _ _ Hs) as (items & c' & Hitems & Hc' & Hrun).
  rewrite range_list_step_1, Z.sub_0_r in Hitems, Hrun.
  exists c'. split; [done|].
  rewrite Hc'. apply list_eq. intros k.
  rewrite (items_read_lookup _ _ _ k Hitems).
  destruct (decide (k < len (self w))%nat) as [Hk|Hk].
  - rewrite lookup_seqZ_lt by lia. simpl. f_equal. lia.
  - rewrite lookup_seqZ_ge by lia. simpl. symmetry. apply lookup_ge_None. rewrite <- Hl. lia.
Qed.

(** The range of [::-1] on a container of length [n]: [n-1], ..., 0. *)
Lemma range_list_all_downward (n : nat) :
  range_len (Range (Z.of_nat n + -1) (-1) (-1)) = Z.of_nat n ∧
  range_list (Range (Z.of_nat n + -1) (-1) (-1)) = reverse (seqZ 0 (Z.of_nat n)).
Proof.
  assert (range_len (Range (Z.of_nat n + -1) (-1) (-1)) = Z.of_nat n) as Hlen.
  { unfold range_len. simpl. destruct (Z.of_nat n + -1 <=? -1) eqn:Hle; [lia|].
    rewrite Z.div_1_r. lia. }
  split; [done|]. apply list_eq. intros k.
  destruct (decide (k < n)%nat) as [Hk|Hk].
  - rewrite reverse_lookup by (rewrite length_seqZ; lia).
    rewrite length_seqZ, lookup_seqZ_lt by lia.
    rewrite <- (Nat2Z.id k) at 1. rewrite lookup_range_list by lia.
    unfold range_item. simpl. f_equal. lia.
  - rewrite !lookup_ge_None_2; [done|..].
    + rewrite length_reverse, length_seqZ. lia.
    + pose proof (length_range_list (Range (Z.of_nat n + -1) (-1) (-1))). lia.
Qed.

Lemma slice_indices_all_downward (n : nat) :
  slice_indices (Slice None None (Some (-1))) (Z.of_nat n) = Ok (Z.of_nat n + -1, -1, -1).
Proof.
  unfold slice_indices. simpl. by assert ((Z.of_nat n <? 0) = false) as -> by lia.
Qed.

(** X9. [self[::-1]] is a new instance holding the items of the container
    in reverse order, read from the last index down. *)
Theorem getitem_reversed w :
  ∃ c',
    __getitem__ len new _getitem (Sliced (Slice None None (Some (-1)))) w =
      (Ok (NewInstance c'),
       World (self w)
         (calls w ++ (PrimGet <$> reverse (seqZ 0 (Z.of_nat (len (self w))))))) ∧
    contents c' = reverse (contents (self w)).
Proof using Hseq.
  pose proof (len_contents _ _ _ _ Hseq) as Hl.
  set (n := len (self w)) in *.
  destruct (getitem_slice_run w _ _ _ _ (slice_indices_all_downward n))
    as (items & c' & Hitems & Hc' & Hrun).
  rewrite (proj2 (range_list_all_downward n)) in Hitems, Hrun.
  exists c'. split; [done|].
  rewrite Hc'. apply list_eq. intros k.
  rewrite (items_read_lookup _ _ _ k Hitems).
  destruct (decide (k < n)%nat) as [Hk|Hk].
  - rewrite !reverse_lookup by (rewrite ?length_seqZ, <- ?Hl; lia).
    rewrite length_seqZ, lookup_seqZ_lt by lia. simpl. f_equal. rewrite <- Hl. lia.
  - rewrite !lookup_ge_None_2; [done|..].
    + rewrite length_reverse, <- Hl. lia.
    + rewrite length_reverse, length_seqZ. lia.
Qed.

(** X10. [deslice] does not touch the container. Unless the step is zero it
    returns a range whose indices are all within [0, n), no two of them
    equal, and at most [n] in number. *)
Theorem deslice_valid_range w s :
  slice_step s ≠ Some 0 →
  ∃ r,
    deslice len s w = (Ok r, w) ∧
    Forall (λ i, 0 ≤ i < Z.of_nat (len (self w))) (range_list r) ∧
    NoDup (range_list r) ∧
    range_len r ≤ Z.of_nat (len (self w)).
Proof.
  intros Hstep.
  destruct (slice_indices_ok s (len (self w)) Hstep) as (start & stop & step & Hs).
  pose proof (slice_indices_bounds _ _ _ _ _ Hs) as (_ & Hne & Hup & Hdown).
  exists (Range start stop step). split_and!.
  - by apply deslice_ok.
  - by eapply range_list_in_bounds.
  - by apply NoDup_range_list.
  - unfold range_len. simpl. destruct (0 <? step) eqn:Hsign.
    + destruct Hup as [??]; [lia|]. case_match; [lia|].
      assert ((stop - start - 1) / step ≤ stop - start - 1); [|lia].
      apply Z.div_le_upper_bound; nia.
    + destruct Hdown as [??]; [lia|]. case_match; [lia|].
      assert ((start - stop - 1) / - step ≤ start - stop - 1); [|lia].
      apply Z.div_le_upper_bound; nia.
Qed.

(** *** What slice assignment and slice deletion leave *)


(** X12. [del self[a:b]] (no step, or step 1) removes the run from the
    normalised start to the normalised stop, deleting from its last index
    down, and keeps the rest in order. *)
Theorem delitem_contiguous_slice w s :
  slice_step s = None ∨ slice_step s = Some 1 →
  ∃ start stop c',
    slice_indices s (Z.of_nat (len (self w))) = Ok (start, stop, 1) ∧
    __delitem__ len _delitem (Sliced s) w =
      (Ok (), World c' (calls w ++ (PrimDel <$> reverse (seqZ start (stop - start))))) ∧
    contents c' =
      take (Z.to_nat start) (contents (self w)) ++
      drop (Z.to_nat (Z.max start stop)) (contents (self w)).
Proof using Hseq Hmut.
  intros Hstep.
  destruct (slice_indices_ok s (len (self w))) as (start & stop & step & Hs).
  { by destruct Hstep as [-> | ->]. }
  pose proof (slice_indices_bounds _ _ _ _ _ Hs) as (Hstep' & _ & Hup & _).
  assert (step = 1) as -> by (by destruct Hstep as [Heq | Heq]; rewrite Heq in Hstep').
  destruct Hup as [Hstart Hstop]; [lia|].
  destruct (delete_run_Z (stop - start) start w) as (c' & Hrun & Hc'); [lia..|].
  exists start, stop, c'. split_and!; [done| |].
  - unfold __delitem__, bind. rewrite (deslice_ok _ _ _ _ _ Hs).
    unfold range_reversed. by rewrite range_list_step_1.
  - rewrite Hc'. do 2 f_equal. lia.
Qed.

(** X14. [del self[s]] for a slice whose range has no index or one, whatever
    the sign of its step: nothing, or that one position, is deleted. *)
Theorem delitem_slice_short w s start stop step :
  slice_indices s (Z.of_nat (len (self w))) = Ok (start, stop, step) →
  let r := Range start stop step in
  range_len r ≤ 1 →
  ∃ c',
    __delitem__ len _delitem (Sliced s) w =
      (Ok (), World c' (calls w ++ (PrimDel <$> range_list r))) ∧
    calls_valid (Z.of_nat (len (self w))) (PrimDel (A:=A) <$> range_list r) = true ∧
    contents c' = omit_positions (range_list r) 0 (contents (self w)).
Proof using Hseq Hmut.
  intros Hs r Hlen.
  pose proof (range_list_in_bounds _ _ _ _ _ Hs) as Hall. fold r in Hall.
  pose proof (length_range_list r) as Hlength.
  assert (range_reversed r = range_list r ∧ StronglySorted (λ a b, b < a) (range_list r))
    as [Hrev Hsorted].
  { unfold range_reversed. destruct (range_list r) as [|i [|i' rest]]; simpl in *.
    - split; [done | constructor].
    - split; [done | repeat constructor].
    - lia. }
  destruct (delete_descending _ w Hsorted Hall) as (c' & Hrun & Hc').
  exists c'. split_and!; [|by apply calls_valid_descending|done].
  unfold __delitem__, bind. rewrite (deslice_ok _ _ _ _ _ Hs). fold r. by rewrite Hrev.
Qed.

(** The run of an assignment to an extended slice when the lengths agree. *)
Lemma setitem_extended_run w s step v items start stop step' :
  slice_step s = Some step → step ≠ 1 →
  source_items contents (self w) v = Some items →
  slice_indices s (Z.of_nat (len (self w))) = Ok (start, stop, step') →
  Z.of_nat (length items) = range_len (Range start stop step') →
  ∃ c',
    __setitem__ len _getitem _delitem _insert _setitem (Sliced s) v w =
      (Ok (),
       World c' ((calls w ++ source_reads len (self w) v)
                 ++ ((λ '(i, x), PrimSet i x)
                       <$> zip (range_list (Range start stop step')) items))) ∧
    contents c' =
      store_all (contents (self w)) (zip (range_list (Range start stop step')) items).
Proof using Hseq Hmut.
  intros Hstep Hne Hsrc Hs Hlen.
  unfold __setitem__, bind. rewrite (deslice_ok _ _ _ _ _ Hs), Hstep.
  assert (negb (step =? 1) = true) as -> by lia.
  unfold try_except. rewrite (tuple_items _ _ _ Hsrc).
  assert (negb (Z.of_nat (length items) =? range_len (Range start stop step')) = false)
    as -> by lia.
  apply (set_run _ items (World (self w) (calls w ++ source_reads len (self w) v))).
  by eapply range_list_in_bounds.
Qed.

(** X15. [self[::-1] = self] reverses the container in place: its items are
    read once, in order, and then stored from the last index down. *)
Theorem setitem_reverse_self w v :
  iterates v = SameInstance →
  ∃ c',
    __setitem__ len _getitem _delitem _insert _setitem
      (Sliced (Slice None None (Some (-1)))) v w =
      (Ok (),
       World c' ((calls w ++ (PrimGet <$> seqZ 0 (Z.of_nat (len (self w)))))
                 ++ ((λ '(i, x), PrimSet i x)
                       <$> zip (reverse (seqZ 0 (Z.of_nat (len (self w)))))
                               (contents (self w))))) ∧
    contents c' = reverse (contents (self w)).
Proof using Hseq Hmut.
  intros Hv.
  pose proof (len_contents _ _ _ _ Hseq) as Hl.
  destruct (range_list_all_downward (len (self w))) as [Hlen Hrange].
  destruct (setitem_extended_run w (Slice None None (Some (-1))) (-1) v (contents (self w))
              (Z.of_nat (len (self w)) + -1) (-1) (-1) eq_refl) as (c' & Hrun & Hc').
  - lia.
  - unfold source_items. by rewrite Hv.
  - apply slice_indices_all_downward.
  - rewrite Hlen. by rewrite Hl.
  - rewrite Hrange in Hrun, Hc'. unfold source_reads in Hrun. rewrite Hv in Hrun.
    exists c'. split; [done|].
    apply list_eq. intros k.
    set (l := contents (self w)) in *. set (n := length l).
    assert (len (self w) = n) as Hn by apply Hl. rewrite Hn in *.
    destruct (decide (k < n)%nat) as [Hk|Hk].
    + rewrite reverse_lookup by done. fold n.
      destruct (lookup_lt_is_Some_2 l (n - S k)) as [x Hx]; [lia|].
      rewrite Hx, Hc'.
      replace k with (Z.to_nat (Z.of_nat k)) at 1 by lia.
      apply (store_all_lookup _ _ _ (n - S k)%nat); [| | |done].
      * rewrite <- Hrange. by apply NoDup_range_list.
      * apply Forall_reverse, Forall_seqZ. intros; lia.
      * rewrite reverse_lookup by (rewrite length_seqZ; lia).
        rewrite length_seqZ, lookup_seqZ_lt by lia. f_equal. lia.
    + rewrite !lookup_ge_None_2; [done|..].
      * rewrite length_reverse. fold n. lia.
      * rewrite Hc', length_store_all. fold n. lia.
Qed.

(** X16. What is assigned to an extended slice is what the same slice reads
    afterwards: after [self[s] = items], with as many items as the range of
    [s] has indices, [self[s]] is a new instance holding [items]. *)
Theorem setitem_getitem_extended_slice w s step v items :
  slice_step s = Some step → step ≠ 1 →
  source_items contents (self w) v = Some items →
  (∃ start stop step',
     slice_indices s (Z.of_nat (len (self w))) = Ok (start, stop, step') ∧
     Z.of_nat (length items) = range_len (Range start stop step')) →
  ∃ w' c'',
    __setitem__ len _getitem _delitem _insert _setitem (Sliced s) v w = (Ok (), w') ∧
    len (self w') = len (self w) ∧
    (__getitem__ len new _getitem (Sliced s) w').1 = Ok (NewInstance c'') ∧
    self (__getitem__ len new _getitem (Sliced s) w').2 = self w' ∧
    contents c'' = items.
Proof using Hseq Hmut.
  intros Hstep Hne Hsrc (start & stop & step' & Hs & Hlen).
  pose proof (len_contents _ _ _ _ Hseq) as Hl.
  destruct (setitem_extended_run _ _ _ _ _ _ _ _ Hstep Hne Hsrc Hs Hlen) as (c' & Hrun & Hc').
  set (r := Range start stop step') in *.
  set (w' := World c' _) in Hrun.
  assert (len (self w') = len (self w)) as Hlen'
    by (simpl; by rewrite !Hl, Hc', length_store_all).
  assert (slice_indices s (Z.of_nat (len (self w'))) = Ok (start, stop, step')) as Hs'
    by (by rewrite Hlen').
  destruct (getitem_slice_run w' s _ _ _ Hs') as (items' & c'' & Hitems' & Hc'' & Hread).
  exists w', c''. rewrite Hread. split_and!; [done..|].
  rewrite Hc''. apply list_eq. intros k.
  rewrite (items_read_lookup _ _ _ k Hitems').
  pose proof (length_range_list r) as Hlr.
  pose proof (slice_indices_bounds _ _ _ _ _ Hs) as (_ & Hnz & _).
  destruct (items !! k) as [x|] eqn:Hx.
  - apply lookup_lt_Some in Hx as Hk.
    rewrite <- (Nat2Z.id k) at 1. rewrite lookup_range_list by (fold r; lia). simpl.
    rewrite Hc'. apply (store_all_lookup _ _ _ k); [by apply NoDup_range_list| | |done].
    + rewrite <- Hl. by eapply range_list_in_bounds.
    + rewrite <- (Nat2Z.id k) at 1. apply lookup_range_list. fold r. lia.
  - apply lookup_ge_None in Hx. rewrite lookup_ge_None_2; [done|]. fold r. lia.
Qed.

(** X17. Assigning a value that cannot be iterated to a slice raises
    [TypeError] before anything is deleted or stored: the container and the
    log are as they were. The message tells an extended slice from a plain
    one. *)
Theorem non_iterable_source_refused w s v :
  slice_step s ≠ Some 0 →
  iterates v = NotIterable →
  __setitem__ len _getitem _delitem _insert _setitem (Sliced s) v w =
    (Err (Exc TypeError
            (if match slice_step s with Some step => negb (step =? 1) | None => false end
             then "must assign iterable to extended slice"
             else "must assign iterable to slice")),
     w).
Proof.
  intros Hstep Hv.
  destruct (slice_indices_ok s (len (self w)) Hstep) as (start & stop & step & Hs).
  unfold __setitem__, bind. rewrite (deslice_ok _ _ _ _ _ Hs).
  unfold try_except, tuple, iter. rewrite Hv.
  by destruct (match slice_step s with Some _ => _ | None => _ end).
Qed.

(** X22. What is assigned to a contiguous slice can be read back where it
    was put: after [self[a:b] = items] the container has lost the old run
    and gained the items, and the slice from the normalised start over the
    next [len(items)] positions is a new instance holding [items]. *)
Theorem setitem_getitem_contiguous_slice w s v items :
  slice_step s = None ∨ slice_step s = Some 1 →
  source_items contents (self w) v = Some items →
  ∃ start stop w' c'',
    slice_indices s (Z.of_nat (len (self w))) = Ok (start, stop, 1) ∧
    __setitem__ len _getitem _delitem _insert _setitem (Sliced s) v w = (Ok (), w') ∧
    Z.of_nat (len (self w')) =
      Z.of_nat (len (self w)) - Z.max 0 (stop - start) + Z.of_nat (length items) ∧
    (__getitem__ len new _getitem
       (Sliced (Slice (Some start) (Some (start + Z.of_nat (length items))) None)) w').1 =
      Ok (NewInstance c'') ∧
    contents c'' = items.
Proof using Hseq Hmut.
  intros Hstep Hsrc.
  pose proof (len_contents _ _ _ _ Hseq) as Hl.
  destruct (slice_indices_ok s (len (self w))) as (start & stop & step & Hs).
  { by destruct Hstep as [-> | ->]. }
  pose proof (slice_indices_bounds _ _ _ _ _ Hs) as (Hstep' & _ & Hup & _).
  assert (step = 1) as -> by (by destruct Hstep as [Heq | Heq]; rewrite Heq in Hstep').
  destruct Hup as [Hstart Hstop]; [lia|].
  destruct (setitem_contiguous w s v items start stop Hstep Hs Hsrc) as (c' & Hrun & Hc').
  set (w' := World c' _) in Hrun.
  set (l := contents (self w)) in *.
  assert (length (take (Z.to_nat start) l) = Z.to_nat start) as Hpre
    by (apply length_take_le; subst l; rewrite <- Hl; lia).
  assert (Z.of_nat (len (self w')) =
          Z.of_nat (len (self w)) - Z.max 0 (stop - start) + Z.of_nat (length items)) as Hlen.
  { simpl. rewrite (Hl c'), Hc', !length_app, Hpre, length_drop. fold l.
    rewrite (Hl (self w)). fold l. rewrite (Hl (self w)) in Hstart, Hstop. fold l in Hstart, Hstop.
    lia. }
  assert (slice_indices (Slice (Some start) (Some (start + Z.of_nat (length items))) None)
            (Z.of_nat (len (self w'))) = Ok (start, start + Z.of_nat (length items), 1)) as Hs'.
  { unfold slice_indices, clamp_bound. simpl.
    assert ((Z.of_nat (len c') <? 0) = false) as -> by lia.
    assert ((start <? 0) = false) as -> by lia.
    assert ((start + Z.of_nat (length items) <? 0) = false) as -> by lia.
    simpl in Hlen.
    assert ((Z.of_nat (len c') <? start) = false) as -> by lia.
    by assert ((Z.of_nat (len c') <? start + Z.of_nat (length items)) = false) as -> by lia. }
  destruct (getitem_run_step_1 w' _ _ _ Hs') as (c'' & Hread & Hc'').
  exists start, stop, w', c''. rewrite Hread. split_and!; [done..|].
  rewrite Hc''. simpl. rewrite Hc'.
  replace (Z.to_nat (start + Z.of_nat (length items)))
    with (Z.to_nat start + length items)%nat by lia.
  rewrite app_assoc, take_app_length' by (rewrite length_app; lia).
  by rewrite drop_app_length'.
Qed.
End Mutable.
End Sequence.
End SequenceFacts.

(** ** The mapping wrappers *)

Section MappingFacts.
Import MappingHelper.
Context {K V D : Type}.

Implicit Types (w : world K D) (key : K) (e : exc).

(** C6. [self[key]] asks the original [__getitem__]. What it returns is
    returned. When it raises [KeyError] and the class has a [__missing__],
    that hook is called once, after the lookup, and its outcome, value or
    exception, is the outcome of [self[key]]; when the class has none, the
    [KeyError] of the lookup is raised again as it was. *)
Theorem getitem_missing_dispatch
    (_getitem : K → method V) (missing : option (K → method V)) key w :
  (∀ v d, _getitem key (self w) = (Ok v, d) →
     __getitem__ _getitem missing key w = (Ok v, World d (calls w ++ [RawLookup key]))) ∧
  (∀ e d, _getitem key (self w) = (Err e, d) → exc_class e = KeyError →
     (∀ hook, missing = Some hook →
        __getitem__ _getitem missing key w =
          ((hook key d).1, World (hook key d).2 (calls w ++ [RawLookup key; Missing key]))) ∧
     (missing = None →
        __getitem__ _getitem missing key w = (Err e, World d (calls w ++ [RawLookup key])))) ∧
  (∀ e d, _getitem key (self w) = (Err e, d) → exc_class e ≠ KeyError →
     __getitem__ _getitem missing key w = (Err e, World d (calls w ++ [RawLookup key]))).
Proof.
  unfold __getitem__, try_except, invoke. split_and!.
  - by intros v d ->.
  - intros e d -> He. rewrite decide_True by done. split.
    + intros hook ->. destruct (hook key d) as [r d'] eqn:Hhook. simpl.
      rewrite Hhook. by rewrite <- app_assoc.
    + by intros ->.
  - intros e d -> He. by rewrite decide_False.
Qed.

(** C7. In a class that inherits [__contains__] and [get] from [Mapping],
    the decorator installs versions that ask the original [__getitem__] and
    nothing else: [key in self] is [True] when the lookup returns and
    [False] when it raises [KeyError]; [self.get(key, default)] is the value
    found, or [default]. The only call either makes is the lookup, so
    [__missing__] is never run, whether the class has one or not. *)
Theorem synthesized_contains_get (cls : mapping_class K V D) h :
  mapping_helper cls = Ok h →
  ∃ _getitem,
    cls_getitem cls = Some _getitem ∧
    (cls_contains cls = Inherited → ∀ key w,
       (∀ v d, _getitem key (self w) = (Ok v, d) →
          helped_contains h key w = (Ok true, World d (calls w ++ [RawLookup key]))) ∧
       (∀ e d, _getitem key (self w) = (Err e, d) → exc_class e = KeyError →
          helped_contains h key w = (Ok false, World d (calls w ++ [RawLookup key]))) ∧
       calls (helped_contains h key w).2 = calls w ++ [RawLookup key]) ∧
    (cls_get cls = Inherited → ∀ key default w,
       (∀ v d, _getitem key (self w) = (Ok v, d) →
          helped_get h key default w = (Ok (Some v), World d (calls w ++ [RawLookup key]))) ∧
       (∀ e d, _getitem key (self w) = (Err e, d) → exc_class e = KeyError →
          helped_get h key default w = (Ok default, World d (calls w ++ [RawLookup key]))) ∧
       calls (helped_get h key default w).2 = calls w ++ [RawLookup key]).
Proof.
  unfold mapping_helper. intros Hh.
  destruct (cls_is_Mapping cls); [|done]. simpl in Hh.
  destruct (cls_getitem cls) as [_getitem|]; [|done].
  exists _getitem. split; [done|].
  destruct (cls_contains cls) as [| |f] eqn:Hc; [done|..];
    destruct (cls_get cls) as [| |g] eqn:Hg; try done;
    injection Hh as <-; simpl; (split; [intros Hin | intros Hin]); try done.
  all: intros; unfold __contains__, get, try_except, bind, invoke, ret;
       destruct (_getitem key (self w)) as [[v|e] d] eqn:Hget; simpl;
       (split_and!; [intros ?? [= <- <-]; done | intros ?? [= <- <-] He | ]);
       try done; try (by rewrite decide_True by done); by case_decide.
Qed.

(** X18. A [__contains__] or a [get] that the class defines itself is left
    as it is by the decorator: calling it on the decorated class runs the
    author's method and nothing else, so no lookup is logged. *)
Theorem overrides_left_untouched (cls : mapping_class K V D) h :
  mapping_helper cls = Ok h →
  (∀ f, cls_contains cls = Own f → ∀ key w,
     helped_contains h key w = ((f key (self w)).1, World (f key (self w)).2 (calls w))) ∧
  (∀ g, cls_get cls = Own g → ∀ key default w,
     helped_get h key default w =
       ((g key default (self w)).1, World (g key default (self w)).2 (calls w))).
Proof.
  unfold mapping_helper. intros Hh.
  destruct (cls_is_Mapping cls); [|done]. simpl in Hh.
  destruct (cls_getitem cls) as [_getitem|]; [|done].
  destruct (cls_contains cls) as [| |f'] eqn:Hc; [done|..];
    destruct (cls_get cls) as [| |g'] eqn:Hg; try done;
    injection Hh as <-; simpl; split; try done.
  all: intros ? [= <-]; intros; unfold untouched; by case_match.
Qed.

(** X19. The [__contains__] and [get] the decorator installs let every
    exception of the lookup other than [KeyError] through as it is. *)
Theorem synthesized_contains_get_propagate (cls : mapping_class K V D) h _getitem :
  mapping_helper cls = Ok h →
  cls_getitem cls = Some _getitem →
  ∀ key w e d,
    _getitem key (self w) = (Err e, d) → exc_class e ≠ KeyError →
    (cls_contains cls = Inherited →
       helped_contains h key w = (Err e, World d (calls w ++ [RawLookup key]))) ∧
    (cls_get cls = Inherited → ∀ default,
       helped_get h key default w = (Err e, World d (calls w ++ [RawLookup key]))).
Proof.
  unfold mapping_helper. intros Hh Hget key w e d Hraw He.
  destruct (cls_is_Mapping cls); [|done]. simpl in Hh.
  rewrite Hget in Hh.
  destruct (cls_contains cls) as [| |f'] eqn:Hc; [done|..];
    destruct (cls_get cls) as [| |g'] eqn:Hg; try done;
    injection Hh as <-; simpl; split; try done; intros _; intros;
    unfold __contains__, get, try_except, bind, invoke;
    rewrite Hraw; by rewrite decide_False.
Qed.

End MappingFacts.

(** ** Attaching the decorators *)

(** C9, as the code has it. A class that is not a subclass of the abstract
    base class is refused when the decorator is applied, before any wrapper
    exists, with a [TypeError] whose text is fixed: "can only help
    sequences" from [sequence_helper], "can only help mappings" from
    [mapping_helper], whatever the name of the class. *)
Theorem helpers_refuse_other_classes :
  (∀ A C (cls : SequenceHelper.sequence_class A C),
     SequenceHelper.cls_is_Sequence cls = false →
     SequenceHelper.sequence_helper cls = Err (Exc TypeError "can only help sequences")) ∧
  (∀ K V D (cls : MappingHelper.mapping_class K V D),
     MappingHelper.cls_is_Mapping cls = false →
     MappingHelper.mapping_helper cls = Err (Exc TypeError "can only help mappings")).
Proof.
  split.
  - intros A C cls Hcls. unfold SequenceHelper.sequence_helper. by rewrite Hcls.
  - intros K V D cls Hcls. unfold MappingHelper.mapping_helper. by rewrite Hcls.
Qed.


(** ** The example classes under the decorators *)

Section Examples.
Import SequenceHelper Test.

(** Cases of [test.py], run on the model. *)

Example test_getslice_reversed_by_two :
  List__getitem__ (Sliced (Slice None None (Some (-2)))) (fresh [0; 1; 2; 3; 4]) =
    (Ok (NewInstance (MkList [4; 2; 0])),
     World (MkList [0; 1; 2; 3; 4]) [PrimGet 4; PrimGet 2; PrimGet 0]).
Proof. reflexivity. Qed.

Example test_getslice_out_of_range_bounds :
  List__getitem__ (Sliced (Slice (Some (-100)) (Some 100) (Some 2))) (fresh [0; 1; 2; 3; 4]) =
    (Ok (NewInstance (MkList [0; 2; 4])),
     World (MkList [0; 1; 2; 3; 4]) [PrimGet 0; PrimGet 2; PrimGet 4]).
Proof. reflexivity. Qed.

Example test_extendedslicing_del_every_other :
  List__delitem__ (Sliced (Slice None None (Some 2))) (fresh [0; 1; 2; 3; 4]) =
    (Ok (), World (MkList [1; 3]) [PrimDel 4; PrimDel 2; PrimDel 0]).
Proof. reflexivity. Qed.

Example test_extendedslicing_del_one_downward :
  List__delitem__ (Sliced (Slice (Some 1) None (Some (-2)))) (fresh [0; 1; 2; 3; 4]) =
    (Ok (), World (MkList [0; 2; 3; 4]) [PrimDel 1]).
Proof. reflexivity. Qed.

Example test_extendedslicing_two_for_one :
  List__setitem__ (Sliced (Slice (Some 2) (Some 3) None)) (Value 0 (Yields [77; 88]))
    (fresh (seqZ 0 10)) =
    (Ok (),
     World (MkList [0; 1; 77; 88; 3; 4; 5; 6; 7; 8; 9])
       [PrimDel 2; PrimInsert 2 77; PrimInsert 3 88]).
Proof. reflexivity. Qed.

Example test_extendedslicing_reverse_in_place :
  List__setitem__ (Sliced (Slice None None (Some (-1)))) (Value 0 SameInstance)
    (fresh [0; 1; 2; 3]) =
    (Ok (),
     World (MkList [3; 2; 1; 0])
       [PrimGet 0; PrimGet 1; PrimGet 2; PrimGet 3;
        PrimSet 3 0; PrimSet 2 1; PrimSet 1 2; PrimSet 0 3]).
Proof. reflexivity. Qed.

Example test_setslice_self_from_1 :
  (List__setitem__ (Sliced (Slice (Some 1) None None)) (Value 0 SameInstance)
     (fresh [1; 2; 3; 4; 5])).1 = Ok () ∧
  self (List__setitem__ (Sliced (Slice (Some 1) None None)) (Value 0 SameInstance)
          (fresh [1; 2; 3; 4; 5])).2 = MkList [1; 1; 2; 3; 4; 5].
Proof. split; reflexivity. Qed.

Example test_set_subscript_not_iterable :
  List__setitem__ (Sliced (Slice (Some 0) (Some 10) None)) (Value 1 NotIterable)
    (fresh (seqZ 0 20)) =
    (Err (Exc TypeError "must assign iterable to slice"), fresh (seqZ 0 20)).
Proof. reflexivity. Qed.

Example test_insert_far_left_and_right :
  self (List_insert_ (Int (-200)) 7 (fresh [0; 1; 2])).2 = MkList [7; 0; 1; 2] ∧
  self (List_insert_ (Int 200) 7 (fresh [0; 1; 2])).2 = MkList [0; 1; 2; 7] ∧
  self (List_insert_ (Int (-2)) 7 (fresh [0; 1; 2])).2 = MkList [0; 7; 1; 2].
Proof. repeat split; reflexivity. Qed.

Example test_subscript_not_an_index :
  List__getitem__ Other (fresh [10; 11]) =
    (Err (Exc TypeError "indices must be integers"), fresh [10; 11]).
Proof. reflexivity. Qed.

Example test_decorate_accepts_the_example_classes :
  (∃ getitem, sequence_helper (A:=Z) Tuple_class = Ok (HelpedSequence getitem)) ∧
  (∃ getitem delitem insert setitem,
     sequence_helper (A:=Z) List_class =
       Ok (HelpedMutableSequence getitem delitem insert setitem)).
Proof. split; repeat eexists. Qed.

Example mentions_finds_a_name :
  mentions "List" (exc_args (no_attribute "List" "insert")) = true.
Proof. reflexivity. Qed.

Lemma helpers_refuse_other_classes_witness :
  sequence_helper (A:=Z) S_class = Err (Exc TypeError "can only help sequences") ∧
  MappingHelper.mapping_helper M_class = Err (Exc TypeError "can only help mappings").
Proof.
  split.
  - apply (proj1 helpers_refuse_other_classes). reflexivity.
  - apply (proj2 helpers_refuse_other_classes). reflexivity.
Defined.

(** C9, as the spec has it, fails on the classes [S] and [M] of
    [test_decorate]: the error they are refused with does not name them. *)
Lemma helper_error_names_no_type :
  ¬ (∃ e, sequence_helper (A:=Z) S_class = Err e ∧
          mentions (cls_name (S_class (A:=Z))) (exc_args e) = true) ∧
  ¬ (∃ e, MappingHelper.mapping_helper M_class = Err e ∧
          mentions (MappingHelper.cls_name M_class) (exc_args e) = true).
Proof.
  split; intros (e & He & Hname); vm_compute in He; injection He as <-;
    vm_compute in Hname; discriminate.
Qed.

(** C1 fails on [a = List([0, 1]); del a[::-1]]. The range of the slice is
    1, 0; [reversed] turns it into 0, 1, so the primitive is called at 0 and
    then at 1, upwards, and the second call finds a container of length 1:
    the assertion of [List.__delitem__] fails and the item 1 is left
    behind. *)
Theorem delitem_negative_step_runs_upward :
  List__delitem__ (Sliced (Slice None None (Some (-1)))) (fresh [0; 1]) =
    (Err (Exc AssertionError ""), World (MkList [1]) [PrimDel 0; PrimDel 1]) ∧
  calls_valid (A:=Z) 2 [PrimDel 0; PrimDel 1] = false.
Proof. split; reflexivity. Qed.

Lemma getitem_index_witness :
  List__getitem__ (Int (-1)) (fresh [10; 11]) = List__getitem__ (Int 1) (fresh [10; 11]).
Proof.
  pose proof (getitem_index _list List_len List_new List_getitem
                List_sequence_contract (fresh [10; 11]) (-1)) as (_ & Hwrap & _).
  apply Hwrap. unfold fresh, List_len. simpl. lia.
Defined.

Lemma getitem_slice_witness :
  ∃ start stop step items c',
    slice_indices (Slice None None (Some (-2))) 5 = Ok (start, stop, step) ∧
    List__getitem__ (Sliced (Slice None None (Some (-2)))) (fresh [0; 1; 2; 3; 4]) =
      (Ok (NewInstance c'),
       World (MkList [0; 1; 2; 3; 4]) (PrimGet <$> range_list (Range start stop step))) ∧
    List_new items = Ok c' ∧
    Z.of_nat (List_len c') = range_len (Range start stop step).
Proof.
  destruct (getitem_slice _list List_len List_new List_getitem List_sequence_contract
              (fresh [0; 1; 2; 3; 4]) (Slice None None (Some (-2))))
    as (start & stop & step & items & c' & Hs & Hrun & Hnew & Hlen & _).
  - simpl. discriminate.
  - exists start, stop, step, items, c'. auto.
Defined.

Lemma insert_clamps_witness :
  List_insert_ (Int (-200)) 9 (fresh [0; 1; 2]) =
    mutating (PrimInsert 0 9) (List_insert 0 9) (fresh [0; 1; 2]).
Proof.
  pose proof (insert_clamps _list List_len List_delitem List_insert List_setitem
                List_mutable_sequence_contract (fresh [0; 1; 2]) (-200) 9)
    as (_ & _ & Hrun & _).
  exact Hrun.
Defined.

Lemma zero_step_refused_witness :
  List__setitem__ (Sliced (Slice (Some 0) (Some 10) (Some 0))) (Value 0 (Yields [1; 2; 3]))
    (fresh (seqZ 0 20)) =
  (Err (Exc ValueError "slice step cannot be zero"), fresh (seqZ 0 20)).
Proof.
  destruct (zero_step_refused List_len List_new List_getitem List_delitem List_insert
              List_setitem (fresh (seqZ 0 20)) (Slice (Some 0) (Some 10) (Some 0))
              (Value 0 (Yields [1; 2; 3]))) as (_ & Hset & _); [reflexivity|].
  exact Hset.
Defined.

Lemma setitem_all_but_last_self_witness :
  ∃ c',
    List__setitem__ (Sliced (Slice None (Some (-1)) None)) (Value 0 SameInstance)
      (fresh [1; 2; 3; 4; 5]) =
      (Ok (),
       World c' ((PrimGet <$> seqZ 0 5) ++ (PrimDel <$> reverse (seqZ 0 4))
                 ++ ((λ '(i, x), PrimInsert i x) <$> enumerate [1; 2; 3; 4; 5] 0))) ∧
    _list c' = [1; 2; 3; 4; 5; 5] ∧
    length (_list c') = 6%nat.
Proof.
  apply (setitem_all_but_last_self _list List_len List_new List_getitem List_delitem
           List_insert List_setitem List_sequence_contract List_mutable_sequence_contract
           (fresh [1; 2; 3; 4; 5]) (Value 0 SameInstance)).
  - reflexivity.
  - discriminate.
Defined.

(** C2, as the spec has it, fails on [a = List([1, 2, 3]); a[:-1] = a]: the
    result is [1, 2, 3, 3], four items, not the five of [1, 2, 3, 2, 3]. *)
Lemma setitem_all_but_last_self_not_doubled :
  ¬ (∃ w',
       List__setitem__ (Sliced (Slice None (Some (-1)) None)) (Value 0 SameInstance)
         (fresh [1; 2; 3]) = (Ok (), w') ∧
       length (_list (self w')) = (2 * 3 - 1)%nat ∧
       _list (self w') = [1; 2; 3] ++ drop 1 [1; 2; 3]).
Proof.
  intros (w' & Hrun & Hlen & _). vm_compute in Hrun.
  injection Hrun as <-. simpl in Hlen. discriminate.
Qed.

Lemma setitem_extended_slice_witness :
  List__setitem__ (Sliced (Slice (Some 0) (Some 10) (Some 2))) (Value 0 (Yields [1; 2]))
    (fresh (seqZ 0 20)) =
  (Err (Exc ValueError "attempt to assign 2 values to an extended slice of size 5"),
   fresh (seqZ 0 20)).
Proof.
  pose proof (setitem_extended_slice _list List_len List_new List_getitem List_delitem
                List_insert List_setitem List_sequence_contract
                List_mutable_sequence_contract
                (fresh (seqZ 0 20)) (Slice (Some 0) (Some 10) (Some 2)) 2
                (Value 0 (Yields [1; 2])) [1; 2])
    as (_ & Hrange & _); [reflexivity | lia | reflexivity |].
  apply (Hrange 0 10 2); [reflexivity | vm_compute; discriminate].
Defined.

Lemma getitem_missing_dispatch_witness :
  MappingHelper.__getitem__ FrozenKeyDict_getitem (Some FrozenKeyDict_missing)
    (ExcClass RuntimeError) a_b =
  (Err (Exc RuntimeError ""),
   MappingHelper.World (MappingHelper.self a_b)
     [MappingHelper.RawLookup (ExcClass RuntimeError);
      MappingHelper.Missing (ExcClass RuntimeError)]).
Proof.
  pose proof (getitem_missing_dispatch FrozenKeyDict_getitem (Some FrozenKeyDict_missing)
                (ExcClass RuntimeError) a_b) as (_ & Hmiss & _).
  destruct (Hmiss (Exc KeyError "<class>") (MappingHelper.self a_b)) as [Hhook _];
    [reflexivity | reflexivity |].
  apply (Hhook FrozenKeyDict_missing). reflexivity.
Defined.

Lemma synthesized_contains_get_witness :
  ∃ h,
    MappingHelper.mapping_helper FrozenKeyDict_class = Ok h ∧
    MappingHelper.helped_contains h (Str "z") a_b =
      (Ok false,
       MappingHelper.World (MappingHelper.self a_b) [MappingHelper.RawLookup (Str "z")]) ∧
    MappingHelper.helped_get h (Str "z") (Some (Str "d")) a_b =
      (Ok (Some (Str "d")),
       MappingHelper.World (MappingHelper.self a_b) [MappingHelper.RawLookup (Str "z")]).
Proof.
  destruct (MappingHelper.mapping_helper FrozenKeyDict_class) as [h|] eqn:Hh;
    [|discriminate].
  destruct (synthesized_contains_get FrozenKeyDict_class h Hh)
    as (_getitem & Hget & Hcontains & Hdefault).
  injection Hget as <-.
  exists h. split; [reflexivity|]. split.
  - destruct (Hcontains eq_refl (Str "z") a_b) as (_ & Hmiss & _).
    apply (Hmiss (Exc KeyError "z")); reflexivity.
  - destruct (Hdefault eq_refl (Str "z") (Some (Str "d")) a_b) as (_ & Hmiss & _).
    apply (Hmiss (Exc KeyError "z")); reflexivity.
Defined.

(** The properties above, on instances of the example classes. *)

Lemma setitem_getitem_round_trip_witness :
  ∃ c',
    List__setitem__ (Int (-1)) (Value 200 NotIterable) (fresh [0; 100]) =
      (Ok (), World c' [PrimSet 1 200]) ∧
    _list c' = [0; 200] ∧
    List__getitem__ (Int (-1)) (World c' []) = (Ok (Item 200), World c' [PrimGet 1]).
Proof.
  destruct (setitem_getitem_round_trip _list List_len List_new List_getitem List_delitem
              List_insert List_setitem List_sequence_contract List_mutable_sequence_contract
              (fresh [0; 100]) (-1) (Value 200 NotIterable))
    as (c' & Hrun & Hc' & _ & Hread).
  - unfold fresh, List_len. simpl. lia.
  - exists c'. split_and!; [exact Hrun | exact Hc' | exact (Hread [])].
Defined.

Lemma delitem_index_witness :
  ∃ c',
    List__delitem__ (Int (-2)) (fresh [0; 1]) = (Ok (), World c' [PrimDel 0]) ∧
    _list c' = [1].
Proof.
  destruct (delitem_index _list List_len List_new List_getitem List_delitem
              List_insert List_setitem List_sequence_contract List_mutable_sequence_contract
              (fresh [0; 1]) (-2)) as (c' & Hrun & Hc' & _).
  - unfold fresh, List_len. simpl. lia.
  - exists c'. split; [exact Hrun | exact Hc'].
Defined.

Lemma index_out_of_range_refused_witness :
  List__setitem__ (Int (-3)) (Value 200 NotIterable) (fresh [100; 200]) =
    (Err (Exc IndexError "index out of range"), fresh [100; 200]) ∧
  List__delitem__ (Int (-3)) (fresh [100; 200]) =
    (Err (Exc IndexError "index out of range"), fresh [100; 200]).
Proof.
  apply (index_out_of_range_refused List_len List_getitem List_delitem List_insert
           List_setitem (fresh [100; 200]) (-3) (Value 200 NotIterable)).
  unfold fresh, List_len. simpl. lia.
Defined.

Lemma insert_getitem_round_trip_witness :
  ∃ c',
    List_insert_ (Int (-2)) 7 (fresh [0; 1; 2]) = (Ok (), World c' [PrimInsert 1 7]) ∧
    List_len c' = 4%nat ∧
    List__getitem__ (Int 1) (World c' []) = (Ok (Item 7), World c' [PrimGet 1]).
Proof.
  destruct (insert_getitem_round_trip _list List_len List_new List_getitem List_delitem
              List_insert List_setitem List_sequence_contract List_mutable_sequence_contract
              (fresh [0; 1; 2]) (-2) 7) as (c' & Hrun & Hlen & Hread & _).
  exists c'. split_and!; [exact Hrun | exact Hlen | exact (Hread [])].
Defined.

Lemma insert_delitem_round_trip_witness :
  ∃ c' c'',
    List_insert_ (Int 200) 7 (fresh [0; 1; 2]) = (Ok (), World c' [PrimInsert 3 7]) ∧
    List__delitem__ (Int 3) (World c' [PrimInsert 3 7]) =
      (Ok (), World c'' [PrimInsert 3 7; PrimDel 3]) ∧
    _list c'' = [0; 1; 2].
Proof.
  destruct (insert_delitem_round_trip _list List_len List_new List_getitem List_delitem
              List_insert List_setitem List_sequence_contract List_mutable_sequence_contract
              (fresh [0; 1; 2]) 200 7) as (c' & c'' & Hins & Hdel & Hc'').
  exists c', c''. split_and!; [exact Hins | exact Hdel | exact Hc''].
Defined.

Lemma getitem_contiguous_slice_witness :
  ∃ start stop c',
    slice_indices (Slice (Some (-2)) (Some (-1)) None) 5 = Ok (start, stop, 1) ∧
    List__getitem__ (Sliced (Slice (Some (-2)) (Some (-1)) None)) (fresh [0; 1; 2; 3; 4]) =
      (Ok (NewInstance c'),
       World (MkList [0; 1; 2; 3; 4]) (PrimGet <$> seqZ start (stop - start))) ∧
    _list c' = drop (Z.to_nat start) (take (Z.to_nat stop) [0; 1; 2; 3; 4]).
Proof.
  apply (getitem_contiguous_slice _list List_len List_new List_getitem
           List_sequence_contract (fresh [0; 1; 2; 3; 4]) (Slice (Some (-2)) (Some (-1)) None)).
  by left.
Defined.

Lemma getitem_full_slice_copies_witness :
  ∃ c',
    List__getitem__ (Sliced (Slice None None None)) (fresh [0; 1; 2; 3; 4]) =
      (Ok (NewInstance c'), World (MkList [0; 1; 2; 3; 4]) (PrimGet <$> seqZ 0 5)) ∧
    _list c' = [0; 1; 2; 3; 4].
Proof.
  exact (getitem_full_slice_copies _list List_len List_new List_getitem
           List_sequence_contract (fresh [0; 1; 2; 3; 4])).
Defined.

Lemma getitem_reversed_witness :
  ∃ c',
    List__getitem__ (Sliced (Slice None None (Some (-1)))) (fresh [0; 1; 2; 3; 4]) =
      (Ok (NewInstance c'),
       World (MkList [0; 1; 2; 3; 4]) (PrimGet <$> reverse (seqZ 0 5))) ∧
    _list c' = [4; 3; 2; 1; 0].
Proof.
  exact (getitem_reversed _list List_len List_new List_getitem
           List_sequence_contract (fresh [0; 1; 2; 3; 4])).
Defined.

Lemma deslice_valid_range_witness :
  ∃ r,
    deslice List_len (Slice (Some 3) None (Some (-2))) (fresh [0; 1; 2; 3; 4]) =
      (Ok r, fresh [0; 1; 2; 3; 4]) ∧
    Forall (λ i, 0 ≤ i < 5) (range_list r) ∧
    NoDup (range_list r) ∧
    range_len r ≤ 5.
Proof.
  apply (deslice_valid_range List_len (fresh [0; 1; 2; 3; 4]) (Slice (Some 3) None (Some (-2)))).
  discriminate.
Defined.


Lemma delitem_contiguous_slice_witness :
  ∃ start stop c',
    slice_indices (Slice (Some (-2)) (Some (-1)) None) 2 = Ok (start, stop, 1) ∧
    List__delitem__ (Sliced (Slice (Some (-2)) (Some (-1)) None)) (fresh [0; 1]) =
      (Ok (), World c' ([] ++ (PrimDel <$> reverse (seqZ start (stop - start))))) ∧
    _list c' = take (Z.to_nat start) [0; 1] ++ drop (Z.to_nat (Z.max start stop)) [0; 1].
Proof.
  apply (delitem_contiguous_slice _list List_len List_new List_getitem List_delitem
           List_insert List_setitem List_sequence_contract List_mutable_sequence_contract
           (fresh [0; 1]) (Slice (Some (-2)) (Some (-1)) None)).
  by left.
Defined.

Lemma delitem_slice_upward_witness :
  ∃ c',
    List__delitem__ (Sliced (Slice None None (Some 2))) (fresh [0; 1; 2; 3; 4]) =
      (Ok (), World c' [PrimDel 4; PrimDel 2; PrimDel 0]) ∧
    _list c' = [1; 3].
Proof.
  destruct (delitem_slice_upward _list List_len List_new List_getitem List_delitem
              List_insert List_setitem List_sequence_contract List_mutable_sequence_contract
              (fresh [0; 1; 2; 3; 4]) (Slice None None (Some 2)) 0 5 2)
    as (c' & Hrun & _ & _ & Hc').
  - reflexivity.
  - lia.
  - exists c'. split; [exact Hrun | exact Hc'].
Defined.

Lemma delitem_slice_short_witness :
  ∃ c',
    List__delitem__ (Sliced (Slice (Some 1) None (Some (-2)))) (fresh [0; 1; 2; 3; 4]) =
      (Ok (), World c' [PrimDel 1]) ∧
    _list c' = [0; 2; 3; 4].
Proof.
  destruct (delitem_slice_short _list List_len List_new List_getitem List_delitem
              List_insert List_setitem List_sequence_contract List_mutable_sequence_contract
              (fresh [0; 1; 2; 3; 4]) (Slice (Some 1) None (Some (-2))) 1 (-1) (-2))
    as (c' & Hrun & _ & Hc').
  - reflexivity.
  - vm_compute. discriminate.
  - exists c'. split; [exact Hrun | exact Hc'].
Defined.

Lemma setitem_reverse_self_witness :
  ∃ c',
    (List__setitem__ (Sliced (Slice None None (Some (-1)))) (Value 0 SameInstance)
       (fresh [0; 1; 2; 3])).1 = Ok () ∧
    self (List__setitem__ (Sliced (Slice None None (Some (-1)))) (Value 0 SameInstance)
            (fresh [0; 1; 2; 3])).2 = c' ∧
    _list c' = [3; 2; 1; 0].
Proof.
  destruct (setitem_reverse_self _list List_len List_new List_getitem List_delitem
              List_insert List_setitem List_sequence_contract List_mutable_sequence_contract
              (fresh [0; 1; 2; 3]) (Value 0 SameInstance)) as (c' & Hrun & Hc').
  - reflexivity.
  - exists c'. unfold List__setitem__. rewrite Hrun. split_and!; [done | done | exact Hc'].
Defined.

Lemma setitem_getitem_extended_slice_witness :
  ∃ w' c'',
    List__setitem__ (Sliced (Slice (Some 2) (Some 10) (Some 3))) (Value 0 (Yields [1; 2; 3]))
      (fresh (seqZ 0 20)) = (Ok (), w') ∧
    (List__getitem__ (Sliced (Slice (Some 2) (Some 10) (Some 3))) w').1 =
      Ok (NewInstance c'') ∧
    _list c'' = [1; 2; 3].
Proof.
  destruct (setitem_getitem_extended_slice _list List_len List_new List_getitem List_delitem
              List_insert List_setitem List_sequence_contract List_mutable_sequence_contract
              (fresh (seqZ 0 20)) (Slice (Some 2) (Some 10) (Some 3)) 3
              (Value 0 (Yields [1; 2; 3])) [1; 2; 3])
    as (w' & c'' & Hset & _ & Hget & _ & Hc'').
  - reflexivity.
  - lia.
  - reflexivity.
  - exists 2, 10, 3. split; reflexivity.
  - exists w', c''. split_and!; [exact Hset | exact Hget | exact Hc''].
Defined.

Lemma non_iterable_source_refused_witness :
  List__setitem__ (Sliced (Slice (Some 0) (Some 10) None)) (Value 1 NotIterable)
    (fresh (seqZ 0 20)) =
  (Err (Exc TypeError "must assign iterable to slice"), fresh (seqZ 0 20)).
Proof.
  apply (non_iterable_source_refused List_len List_getitem List_delitem List_insert
           List_setitem (fresh (seqZ 0 20)) (Slice (Some 0) (Some 10) None)
           (Value 1 NotIterable)).
  - discriminate.
  - reflexivity.
Defined.

Lemma overrides_left_untouched_witness :
  ∃ h,
    MappingHelper.mapping_helper O_class = Ok h ∧
    MappingHelper.helped_contains h (Str "a") a_b =
      (Err (Exc TypeError "'int' object is not callable"), a_b).
Proof.
  destruct (MappingHelper.mapping_helper O_class) as [h|] eqn:Hh; [|discriminate].
  exists h. split; [reflexivity|].
  destruct (overrides_left_untouched O_class h Hh) as [Hcontains _].
  exact (Hcontains _ eq_refl (Str "a") a_b).
Defined.

Lemma synthesized_contains_get_propagate_witness :
  ∃ h,
    MappingHelper.mapping_helper Uncallable_class = Ok h ∧
    MappingHelper.helped_contains h (Str "a") a_b =
      (Err (Exc TypeError "'int' object is not callable"),
       MappingHelper.World (MappingHelper.self a_b) [MappingHelper.RawLookup (Str "a")]) ∧
    MappingHelper.helped_get h (Str "a") None a_b =
      (Err (Exc TypeError "'int' object is not callable"),
       MappingHelper.World (MappingHelper.self a_b) [MappingHelper.RawLookup (Str "a")]).
Proof.
  destruct (MappingHelper.mapping_helper Uncallable_class) as [h|] eqn:Hh; [|discriminate].
  exists h. split; [reflexivity|].
  destruct (synthesized_contains_get_propagate Uncallable_class h _ Hh eq_refl (Str "a") a_b
              (Exc TypeError "'int' object is not callable") (MappingHelper.self a_b))
    as [Hcontains Hget].
  - reflexivity.
  - discriminate.
  - split; [exact (Hcontains eq_refl) | exact (Hget eq_refl None)].
Defined.



Lemma setitem_getitem_contiguous_slice_witness :
  ∃ start stop w' c'',
    slice_indices (Slice None (Some 2) None) 4 = Ok (start, stop, 1) ∧
    List__setitem__ (Sliced (Slice None (Some 2) None)) (Value 0 (Yields [7]))
      (fresh [1; 2; 3; 4]) = (Ok (), w') ∧
    Z.of_nat (List_len (self w')) = 4 - Z.max 0 (stop - start) + 1 ∧
    (List__getitem__ (Sliced (Slice (Some start) (Some (start + 1)) None)) w').1 =
      Ok (NewInstance c'') ∧
    _list c'' = [7].
Proof.
  apply (setitem_getitem_contiguous_slice _list List_len List_new List_getitem List_delitem
           List_insert List_setitem List_sequence_contract List_mutable_sequence_contract
           (fresh [1; 2; 3; 4]) (Slice None (Some 2) None) (Value 0 (Yields [7])) [7]).
  - by left.
  - reflexivity.
Defined.
End Examples.
